(** * Signal generator example: a shallow embedding of
      [public/examples/signal_generator.py]

    The script fetches OHLC bars over HTTP, derives chart annotations from
    an inside-bar pattern and posts them back.  The embedding follows the
    script function by function:

    - prices are Python floats.  They are embedded twice: as exact
      rationals [Q], for the statements that are about exact arithmetic,
      and as IEEE 754 binary64 numbers (module [Binary64], on the
      primitive floats), for the statements that depend on what the
      floating-point operations of the script return;
    - a bar, a point and a line are Python dicts with a fixed set of keys;
      they are records whose fields carry the key names;
    - the [for] loop of [generate_signals] is a fold over the index range,
      subscripting the list with an explicit out-of-range failure;
    - [requests], [print] and the clock are effects: a state-and-exception
      monad over a [World] that logs console lines and issued requests,
      with the remote server and the clock given by an environment;
    - a response body is what the script can get out of it: either the
      exception met on decoding it and calling [.get] on the result, or
      the JSON object with the keys the script reads, typed as the
      annotations of the script have them ([bars] is a list of bars). *)

From Stdlib Require Import QArith ZArith String Ascii Qround Qabs.
From Stdlib Require Import DecimalString DecimalNat.
From Stdlib Require Import PrimFloat FloatOps SpecFloat.
From stdpp Require Import base option list strings.

Open Scope string_scope.

(** ** Number formatting *)

(** [str(n)] for a non-negative integer. *)
Definition str_nat (n : nat) : string :=
  NilEmpty.string_of_uint (Nat.to_uint n).

(** [w] copies of the character ["0"]. *)
Fixpoint zeros (w : nat) : string :=
  match w with
  | O => ""
  | S w' => String "0" (zeros w')
  end.

(** Left padding with zeros up to a minimal width; longer strings are
    left alone. *)
Definition zfill (w : nat) (s : string) : string :=
  zeros (w - String.length s) ++ s.

(** The format specification [{n:03d}] for a non-negative counter. *)
Definition format_03d (n : nat) : string := zfill 3 (str_nat n).

(** Rounding to the nearest integer, ties to the even neighbour. *)
Definition round_half_even (q : Q) : Z :=
  let fl := Qfloor q in
  match Qcompare (q - inject_Z fl) (1 # 2) with
  | Lt => fl
  | Gt => (fl + 1)%Z
  | Eq => if Z.even fl then fl else (fl + 1)%Z
  end.

(** The format specification [{x:.5f}], on the exact value: sign, integer
    part, and five decimals rounded half-even. *)
Definition format_5f (x : Q) : string :=
  let n := round_half_even (Qabs x * 100000) in
  (if Qle_bool 0 x then "" else "-")
    ++ str_nat (Z.to_nat (n / 100000))
    ++ "."
    ++ zfill 5 (str_nat (Z.to_nat (n mod 100000))).

(** Python's [a < b] and [a > b] on prices. *)
Definition Qlt_bool (a b : Q) : bool := negb (Qle_bool b a).
Definition Qgt_bool (a b : Q) : bool := Qlt_bool b a.

(** ** Data model *)

(** A bar: the dict with keys [time], [open], [high], [low], [close],
    [volume] returned by the bars endpoint. *)
Module Bar.
Record t := mk {
  time : Z;
  open : Q;
  high : Q;
  low : Q;
  close : Q;
  volume : Q
}.
End Bar.

(** A point marker, with the keys of the dict appended to [points]. *)
Module Point.
Record t := mk {
  time : Z;
  type : string;
  price : Q;
  label : string;
  color : string;
  shape : string;
  size : Z
}.
End Point.

(** A horizontal line, with the keys of the dict appended to [lines]. *)
Module Line.
Record t := mk {
  id : string;
  price : Q;
  start_time : Z;
  bars : Z;
  label : string;
  color : string;
  style : string;
  width : Z
}.
End Line.

(** ** [generate_signals] *)

Local Open Scope Q_scope.

(** The three local variables the loop updates. *)
Record LoopState := mkLoopState {
  points : list Point.t;
  lines : list Line.t;
  signal_count : nat
}.

Definition init_state : LoopState :=
  {| points := []; lines := []; signal_count := 0%nat |}.

Definition is_inside_bar (prev curr : Bar.t) : bool :=
  Qlt_bool (Bar.high curr) (Bar.high prev)
  && Qgt_bool (Bar.low curr) (Bar.low prev).

Definition mid_point (prev : Bar.t) : Q :=
  (Bar.high prev + Bar.low prev) / 2.

Definition is_bullish (prev curr : Bar.t) : bool :=
  Qgt_bool (Bar.close curr) (mid_point prev).

Definition signal_id (count : nat) : string :=
  "signal_" ++ format_03d count.

(** The five [lines.append] calls of a branch; the two branches differ in
    the entry colour only. *)
Definition signal_lines (sid : string) (bar_time : Z)
    (entry_color : string) (entry_price stop_loss tp1 tp2 tp3 : Q)
    : list Line.t :=
  [ {| Line.id := sid ++ "_entry"; Line.price := entry_price;
       Line.start_time := bar_time; Line.bars := 15%Z;
       Line.label := "Entry: " ++ format_5f entry_price;
       Line.color := entry_color; Line.style := "dashed";
       Line.width := 1%Z |};
    {| Line.id := sid ++ "_sl"; Line.price := stop_loss;
       Line.start_time := bar_time; Line.bars := 15%Z;
       Line.label := "SL: " ++ format_5f stop_loss;
       Line.color := "#ef4444"; Line.style := "solid";
       Line.width := 2%Z |};
    {| Line.id := sid ++ "_tp1"; Line.price := tp1;
       Line.start_time := bar_time; Line.bars := 15%Z;
       Line.label := "TP1: " ++ format_5f tp1;
       Line.color := "#22c55e"; Line.style := "dotted";
       Line.width := 1%Z |};
    {| Line.id := sid ++ "_tp2"; Line.price := tp2;
       Line.start_time := bar_time; Line.bars := 15%Z;
       Line.label := "TP2: " ++ format_5f tp2;
       Line.color := "#10b981"; Line.style := "dotted";
       Line.width := 1%Z |};
    {| Line.id := sid ++ "_tp3"; Line.price := tp3;
       Line.start_time := bar_time; Line.bars := 15%Z;
       Line.label := "TP3: " ++ format_5f tp3;
       Line.color := "#059669"; Line.style := "dotted";
       Line.width := 1%Z |} ].

(** The buy branch of the loop body: one point and five lines. *)
Definition buy_signal (sid : string) (prev curr : Bar.t)
    : Point.t * list Line.t :=
  let bar_time := Bar.time curr in
  let entry_price := Bar.close curr in
  let stop_loss := Bar.low prev - 0.0005 in
  let tp1 := entry_price + (entry_price - stop_loss) * 1 in
  let tp2 := entry_price + (entry_price - stop_loss) * 2 in
  let tp3 := entry_price + (entry_price - stop_loss) * 3 in
  ({| Point.time := bar_time; Point.type := "low";
      Point.price := entry_price; Point.label := "BUY";
      Point.color := "#3b82f6"; Point.shape := "arrowUp";
      Point.size := 2%Z |},
   signal_lines sid bar_time "#3b82f6" entry_price stop_loss tp1 tp2 tp3).

(** The sell branch of the loop body. *)
Definition sell_signal (sid : string) (prev curr : Bar.t)
    : Point.t * list Line.t :=
  let bar_time := Bar.time curr in
  let entry_price := Bar.close curr in
  let stop_loss := Bar.high prev + 0.0005 in
  let tp1 := entry_price - (stop_loss - entry_price) * 1 in
  let tp2 := entry_price - (stop_loss - entry_price) * 2 in
  let tp3 := entry_price - (stop_loss - entry_price) * 3 in
  ({| Point.time := bar_time; Point.type := "high";
      Point.price := entry_price; Point.label := "SELL";
      Point.color := "#f97316"; Point.shape := "arrowDown";
      Point.size := 2%Z |},
   signal_lines sid bar_time "#f97316" entry_price stop_loss tp1 tp2 tp3).

(** What one qualifying index appends, given the counter on entry. *)
Definition signal_batch (count : nat) (prev curr : Bar.t)
    : Point.t * list Line.t :=
  if is_bullish prev curr
  then buy_signal (signal_id count) prev curr
  else sell_signal (signal_id count) prev curr.

(** One iteration of [for i in range(2, len(bars))].  [None] is the
    [IndexError] of an out-of-range subscript. *)
Definition loop_body (bars : list Bar.t) (st : LoopState) (i : nat)
    : option LoopState :=
  prev ← bars !! (i - 1)%nat;
  curr ← bars !! i;
  if negb (is_inside_bar prev curr) then Some st
  else
    let '(p, ls) := signal_batch (signal_count st) prev curr in
    Some {| points := points st ++ [p];
            lines := lines st ++ ls;
            signal_count := S (signal_count st) |}.

(** Running the body over a list of indices, stopping at a failure. *)
Fixpoint for_each (body : LoopState → nat → option LoopState)
    (indices : list nat) (st : LoopState) : option LoopState :=
  match indices with
  | [] => Some st
  | i :: rest =>
      match body st i with
      | Some st' => for_each body rest st'
      | None => None
      end
  end.

(** [range(2, n)]. *)
Definition range2 (n : nat) : list nat := seq 2 (n - 2)%nat.

(** The loop state once the indices below [n] have been processed. *)
Definition loop_upto (bars : list Bar.t) (n : nat) : option LoopState :=
  for_each (loop_body bars) (range2 n) init_state.

Definition generate_signals (bars : list Bar.t)
    : option (list Point.t * list Line.t) :=
  st ← loop_upto bars (length bars);
  Some (points st, lines st).

Local Close Scope Q_scope.

(** ** [generate_signals] on binary64 *)

(** The same function on the numbers Python computes with.  A float is a
    binary64 number; [+], [-], [*], [/] round to nearest, ties to even;
    [<] and [>] are false as soon as one side is a NaN; an integer
    literal next to a float ([/ 2], [* 3]) is converted exactly. *)
Module Binary64.

Local Open Scope float_scope.

Module Bar.
Record t := mk {
  time : Z;
  open : float;
  high : float;
  low : float;
  close : float;
  volume : float
}.
End Bar.

Module Point.
Record t := mk {
  time : Z;
  type : string;
  price : float;
  label : string;
  color : string;
  shape : string;
  size : Z
}.
End Point.

Module Line.
Record t := mk {
  id : string;
  price : float;
  start_time : Z;
  bars : Z;
  label : string;
  color : string;
  style : string;
  width : Z
}.
End Line.

(** The literal [0.0005]: the binary64 number nearest to 5/10000. *)
Definition literal_0_0005 : float := 0x1.0624dd2f1a9fcp-11.

(** The exact value [m * 2^e] of a finite non-zero float, sign apart. *)
Definition magnitude (m : positive) (e : Z) : Q :=
  if (0 <=? e)%Z then inject_Z (Z.pos m * 2 ^ e)
  else Z.pos m # Z.to_pos (2 ^ (- e)).

(** The formatting of an exact non-negative value. *)
Definition format_5f_exact : Q → string := format_5f.

(** The format specification [{x:.5f}] on a float: the sign bit, then the
    exact value to five decimals, or [inf], or [nan]. *)
Definition format_5f (x : float) : string :=
  match Prim2SF x with
  | S754_zero s => (if s then "-" else "") ++ "0.00000"
  | S754_infinity s => (if s then "-" else "") ++ "inf"
  | S754_nan => "nan"
  | S754_finite s m e =>
      (if s then "-" else "") ++ format_5f_exact (magnitude m e)
  end.

Record LoopState := mkLoopState {
  points : list Point.t;
  lines : list Line.t;
  signal_count : nat
}.

Definition init_state : LoopState :=
  {| points := []; lines := []; signal_count := 0%nat |}.

Definition is_inside_bar (prev curr : Bar.t) : bool :=
  (Bar.high curr <? Bar.high prev) && (Bar.low prev <? Bar.low curr).

Definition mid_point (prev : Bar.t) : float :=
  (Bar.high prev + Bar.low prev) / 2.

Definition is_bullish (prev curr : Bar.t) : bool :=
  mid_point prev <? Bar.close curr.

Definition signal_lines (sid : string) (bar_time : Z)
    (entry_color : string) (entry_price stop_loss tp1 tp2 tp3 : float)
    : list Line.t :=
  [ {| Line.id := sid ++ "_entry"; Line.price := entry_price;
       Line.start_time := bar_time; Line.bars := 15%Z;
       Line.label := "Entry: " ++ format_5f entry_price;
       Line.color := entry_color; Line.style := "dashed";
       Line.width := 1%Z |};
    {| Line.id := sid ++ "_sl"; Line.price := stop_loss;
       Line.start_time := bar_time; Line.bars := 15%Z;
       Line.label := "SL: " ++ format_5f stop_loss;
       Line.color := "#ef4444"; Line.style := "solid";
       Line.width := 2%Z |};
    {| Line.id := sid ++ "_tp1"; Line.price := tp1;
       Line.start_time := bar_time; Line.bars := 15%Z;
       Line.label := "TP1: " ++ format_5f tp1;
       Line.color := "#22c55e"; Line.style := "dotted";
       Line.width := 1%Z |};
    {| Line.id := sid ++ "_tp2"; Line.price := tp2;
       Line.start_time := bar_time; Line.bars := 15%Z;
       Line.label := "TP2: " ++ format_5f tp2;
       Line.color := "#10b981"; Line.style := "dotted";
       Line.width := 1%Z |};
    {| Line.id := sid ++ "_tp3"; Line.price := tp3;
       Line.start_time := bar_time; Line.bars := 15%Z;
       Line.label := "TP3: " ++ format_5f tp3;
       Line.color := "#059669"; Line.style := "dotted";
       Line.width := 1%Z |} ].

Definition buy_signal (sid : string) (prev curr : Bar.t)
    : Point.t * list Line.t :=
  let bar_time := Bar.time curr in
  let entry_price := Bar.close curr in
  let stop_loss := Bar.low prev - literal_0_0005 in
  let tp1 := entry_price + (entry_price - stop_loss) * 1 in
  let tp2 := entry_price + (entry_price - stop_loss) * 2 in
  let tp3 := entry_price + (entry_price - stop_loss) * 3 in
  ({| Point.time := bar_time; Point.type := "low";
      Point.price := entry_price; Point.label := "BUY";
      Point.color := "#3b82f6"; Point.shape := "arrowUp";
      Point.size := 2%Z |},
   signal_lines sid bar_time "#3b82f6" entry_price stop_loss tp1 tp2 tp3).

Definition sell_signal (sid : string) (prev curr : Bar.t)
    : Point.t * list Line.t :=
  let bar_time := Bar.time curr in
  let entry_price := Bar.close curr in
  let stop_loss := Bar.high prev + literal_0_0005 in
  let tp1 := entry_price - (stop_loss - entry_price) * 1 in
  let tp2 := entry_price - (stop_loss - entry_price) * 2 in
  let tp3 := entry_price - (stop_loss - entry_price) * 3 in
  ({| Point.time := bar_time; Point.type := "high";
      Point.price := entry_price; Point.label := "SELL";
      Point.color := "#f97316"; Point.shape := "arrowDown";
      Point.size := 2%Z |},
   signal_lines sid bar_time "#f97316" entry_price stop_loss tp1 tp2 tp3).

Definition signal_batch (count : nat) (prev curr : Bar.t)
    : Point.t * list Line.t :=
  if is_bullish prev curr
  then buy_signal (signal_id count) prev curr
  else sell_signal (signal_id count) prev curr.

(** One iteration of [for i in range(2, len(bars))]; [None] is the
    [IndexError] of an out-of-range subscript. *)
Definition loop_body (bars : list Bar.t) (st : LoopState) (i : nat)
    : option LoopState :=
  prev ← bars !! (i - 1)%nat;
  curr ← bars !! i;
  if negb (is_inside_bar prev curr) then Some st
  else
    let '(p, ls) := signal_batch (signal_count st) prev curr in
    Some {| points := points st ++ [p];
            lines := lines st ++ ls;
            signal_count := S (signal_count st) |}.

Fixpoint for_each (body : LoopState → nat → option LoopState)
    (indices : list nat) (st : LoopState) : option LoopState :=
  match indices with
  | [] => Some st
  | i :: rest =>
      match body st i with
      | Some st' => for_each body rest st'
      | None => None
      end
  end.

(** The loop state once the indices below [n] have been processed. *)
Definition loop_upto (bars : list Bar.t) (n : nat) : option LoopState :=
  for_each (loop_body bars) (range2 n) init_state.

Definition generate_signals (bars : list Bar.t)
    : option (list Point.t * list Line.t) :=
  st ← loop_upto bars (length bars);
  Some (points st, lines st).

End Binary64.

(** ** Effects: exceptions, the console, HTTP and the clock *)

(** [str(n)] for an integer. *)
Definition str_Z (n : Z) : string :=
  NilEmpty.string_of_int (Z.to_int n).

(** [c * n] for a one-character string [c]. *)
Fixpoint repeat_char (c : ascii) (n : nat) : string :=
  match n with
  | O => ""
  | S n' => String c (repeat_char c n')
  end.

(** The line feed of ["\n"]. *)
Definition nl : string := String "010"%char "".

(** An exception of class [Exception]: what [except Exception as e] binds,
    with [str(e)]. *)
Inductive ExnClass :=
| RequestException   (* raised by [requests.get] / [requests.post] *)
| JSONDecodeError    (* raised by [response.json()] *)
| AttributeError     (* [.get] on a decoded value that is not an object *)
| IndexError.        (* a list subscript out of range *)

Record Exn := mkExn { exn_class : ExnClass; exn_str : string }.

Inductive Outcome (A : Type) :=
| Returns (a : A)
| Raises (e : Exn).
Arguments Returns {A} a.
Arguments Raises {A} e.

(** What [response.json()] followed by [.get(...)] meets: an exception
    when the body is not JSON or decodes to something that is not an
    object, and the object otherwise. *)
Inductive Decoded (O : Type) :=
| Undecodable (e : Exn)
| JsonObject (o : O).
Arguments Undecodable {O} e.
Arguments JsonObject {O} o.

Record Response (O : Type) := mkResponse {
  status_code : Z;
  text : string;
  json : Decoded O
}.
Arguments mkResponse {O}.
Arguments status_code {O}.
Arguments text {O}.
Arguments json {O}.

(** The object served by the bars endpoint: the value under the key
    [bars], when the key is present. *)
Record BarsObject := mkBarsObject {
  bars_key : option (list Bar.t)
}.

(** The object served by the indicators endpoint: the three keys the
    script reads, each possibly missing. *)
Record SubmitObject := mkSubmitObject {
  points_received : option Z;
  lines_received : option Z;
  expires_at : option string
}.

(** [requests.get(url, params=..., headers=..., timeout=...)]. *)
Record GetRequest := mkGetRequest {
  get_url : string;
  get_symbol : string;
  get_timeframe : Z;
  get_limit : Z;
  get_headers : list (string * string);
  get_timeout : Z
}.

(** A value of the [metadata] dict. *)
Inductive MetaValue :=
| MetaStr (s : string)
| MetaInt (n : Z).

(** The JSON payload of a submission. *)
Record Payload := mkPayload {
  payload_symbol : string;
  payload_timeframe : Z;
  payload_indicator_name : string;
  payload_version : string;
  payload_points : list Point.t;
  payload_lines : list Line.t;
  payload_metadata : list (string * MetaValue)
}.

(** [requests.post(url, json=..., headers=..., timeout=...)]. *)
Record PostRequest := mkPostRequest {
  post_url : string;
  post_json : Payload;
  post_headers : list (string * string);
  post_timeout : Z
}.

(** The outside world: what the server answers to the [n]-th request of
    each kind (an exception is a transport failure), and what the clock
    reads at its [n]-th reading. *)
Record Env := mkEnv {
  http_get : GetRequest → nat → Exn + Response BarsObject;
  http_post : PostRequest → nat → Exn + Response SubmitObject;
  utcnow_isoformat : nat → string
}.

(** What the script has done so far. *)
Record World := mkWorld {
  console : list string;
  gets : list GetRequest;
  posts : list PostRequest;
  clock_reads : nat
}.

(** Computations: state passing over the world, ending in a value or in
    an exception. *)
Definition M (A : Type) : Type := World → World * Outcome A.

Definition ret {A} (a : A) : M A := λ w, (w, Returns a).

Definition bind {A B} (m : M A) (k : A → M B) : M B :=
  λ w, match m w with
       | (w', Returns a) => k a w'
       | (w', Raises e) => (w', Raises e)
       end.

Definition raise {A} (e : Exn) : M A := λ w, (w, Raises e).

(** [try: body except Exception as e: handler e]. *)
Definition try_except {A} (body : M A) (handler : Exn → M A) : M A :=
  λ w, match body w with
       | (w', Returns a) => (w', Returns a)
       | (w', Raises e) => handler e w'
       end.

#[global] Instance M_ret : MRet M := @ret.
#[global] Instance M_bind : MBind M := λ A B k m, bind m k.

Definition print (s : string) : M () :=
  λ w, (mkWorld (console w ++ [s]) (gets w) (posts w) (clock_reads w),
        Returns ()).

Definition now_isoformat (env : Env) : M string :=
  λ w, (mkWorld (console w) (gets w) (posts w) (S (clock_reads w)),
        Returns (utcnow_isoformat env (clock_reads w))).

Definition requests_get (env : Env) (req : GetRequest)
    : M (Response BarsObject) :=
  λ w, (mkWorld (console w) (gets w ++ [req]) (posts w) (clock_reads w),
        match http_get env req (length (gets w)) with
        | inl e => Raises e
        | inr response => Returns response
        end).

Definition requests_post (env : Env) (req : PostRequest)
    : M (Response SubmitObject) :=
  λ w, (mkWorld (console w) (gets w) (posts w ++ [req]) (clock_reads w),
        match http_post env req (length (posts w)) with
        | inl e => Raises e
        | inr response => Returns response
        end).

(** [response.json()], as an object the caller can [.get] from. *)
Definition response_json {O} (response : Response O) : M O :=
  match json response with
  | Undecodable e => raise e
  | JsonObject o => ret o
  end.

(** ** Configuration *)

Definition API_URL : string := "https://api.innova-trading.com".
Definition API_KEY : string := "tu_api_key_aqui".
Definition INDICATOR_ID : string := "mi_indicador".
Definition INDICATOR_NAME : string := "Mi Indicador de Señales".
Definition SYMBOL : string := "EURUSD".
Definition TIMEFRAME : Z := 60.

(** ** [get_bars] *)

Definition get_bars (env : Env) (symbol : string) (timeframe limit : Z)
    : M (option (list Bar.t)) :=
  let url := API_URL ++ "/api/external/bars" in
  let headers := [("Authorization", "Bearer " ++ API_KEY)] in
  try_except
    (response ← requests_get env
       (mkGetRequest url symbol timeframe limit headers 30);
     if (status_code response =? 200)%Z then
       data ← response_json response;
       mret (Some (default [] (bars_key data)))
     else
       print ("Error obteniendo barras: " ++ str_Z (status_code response));;
       print (text response);;
       mret None)
    (λ e,
       print ("Error de conexion: " ++ exn_str e);;
       mret None).

(** ** [submit_signals] *)

(** [str(v)] for an optional integer with an integer default. *)
Definition str_get_int (v : option Z) (dflt : Z) : string :=
  str_Z (default dflt v).

(** [str(v)] for an optional string, [None] printing as ["None"]. *)
Definition str_get_str (v : option string) : string :=
  default "None" v.

Definition submit_signals (env : Env) (indicator_id symbol : string)
    (timeframe : Z) (indicator_name : string) (points : list Point.t)
    (lines : option (list Line.t))
    (metadata : option (list (string * MetaValue))) : M bool :=
  let url := API_URL ++ "/api/external/indicators/" ++ indicator_id in
  let headers := [("Authorization", "Bearer " ++ API_KEY);
                  ("Content-Type", "application/json")] in
  let payload :=
    {| payload_symbol := symbol;
       payload_timeframe := timeframe;
       payload_indicator_name := indicator_name;
       payload_version := "1.0";
       payload_points := points;
       payload_lines := default [] lines;
       payload_metadata := default [] metadata |} in
  try_except
    (response ← requests_post env (mkPostRequest url payload headers 30);
     if bool_decide (status_code response ∈ [200%Z; 201%Z]) then
       result ← response_json response;
       print ("Señales enviadas: "
              ++ str_get_int (points_received result) 0 ++ " puntos, "
              ++ str_get_int (lines_received result) 0 ++ " lineas");;
       print ("Expira: " ++ str_get_str (expires_at result));;
       mret true
     else
       print ("Error enviando señales: " ++ str_Z (status_code response));;
       print (text response);;
       mret false)
    (λ e,
       print ("Error de conexion: " ++ exn_str e);;
       mret false).

(** ** [run_once] *)

(** [generate_signals] as called from effectful code: an out-of-range
    subscript would surface as an [IndexError]. *)
Definition call_generate_signals (bars : list Bar.t)
    : M (list Point.t * list Line.t) :=
  match generate_signals bars with
  | Some r => mret r
  | None => raise (mkExn IndexError "list index out of range")
  end.

(** Truth value of a list: only the empty list is false. *)
Definition list_truthy {A} (l : list A) : bool :=
  match l with
  | [] => false
  | _ :: _ => true
  end.

(** Truth value of an optional list: [None] and [[]] are false. *)
Definition truthy {A} (l : option (list A)) : bool :=
  match l with
  | None => false
  | Some l => list_truthy l
  end.

(** [len([s for s in points if s.get("label") == lbl])]. *)
Definition count_label (lbl : string) (points : list Point.t) : nat :=
  length (filter (λ s, Point.label s = lbl) points).

(** The banner and the announcement of the first step, up to the call of
    [get_bars]. *)
Definition run_once_banner (env : Env) : M () :=
  print (repeat_char "=" 60);;
  now ← now_isoformat env;
  print ("Signal Generator - " ++ now);;
  print ("Symbol: " ++ SYMBOL ++ " | Timeframe: " ++ str_Z TIMEFRAME ++ "m");;
  print (repeat_char "=" 60);;
  print (nl ++ "1. Obteniendo datos OHLC...").

Definition run_once (env : Env) : M bool :=
  run_once_banner env;;
  bars ← get_bars env SYMBOL TIMEFRAME 500;
  if negb (truthy bars) then
    print "   ERROR: No se pudieron obtener los datos";;
    mret false
  else
    let bars := default [] bars in
    print ("   OK: " ++ str_nat (length bars) ++ " barras obtenidas");;
    print (nl ++ "2. Generando señales...");;
    '(points, lines) ← call_generate_signals bars;
    print ("   OK: " ++ str_nat (length points) ++ " puntos, "
           ++ str_nat (length lines) ++ " lineas generadas");;
    if negb (list_truthy points) && negb (list_truthy lines) then
      print "   No hay señales para enviar";;
      mret true
    else
      let buy_signals := count_label "BUY" points in
      let sell_signals := count_label "SELL" points in
      print ("   - BUY: " ++ str_nat buy_signals);;
      print ("   - SELL: " ++ str_nat sell_signals);;
      print (nl ++ "3. Enviando señales a la API...");;
      generated_at ← now_isoformat env;
      let metadata :=
        [("generated_at", MetaStr generated_at);
         ("total_points", MetaInt (Z.of_nat (length points)));
         ("total_lines", MetaInt (Z.of_nat (length lines)));
         ("buy_count", MetaInt (Z.of_nat buy_signals));
         ("sell_count", MetaInt (Z.of_nat sell_signals));
         ("strategy", MetaStr "Inside Bar with Multi-TP + Lines")] in
      success ← submit_signals env INDICATOR_ID SYMBOL TIMEFRAME
                  INDICATOR_NAME points (Some lines) (Some metadata);
      (if success : bool then
         print (nl ++ repeat_char "=" 60);;
         print "EXITO! Señales enviadas correctamente.";;
         print "Las señales aparecen automaticamente en el chart.";;
         print (repeat_char "=" 60)
       else mret ());;
      mret success.

(** ** Vocabulary of the statements *)

(** The suffixes of the five line ids of a batch, in the order the lines
    are appended. *)
Definition line_suffixes : list string :=
  [ "_entry"; "_sl"; "_tp1"; "_tp2"; "_tp3" ].

(** The five line ids of the batch numbered [k]. *)
Definition batch_ids (k : nat) : list string :=
  (λ suffix, signal_id k ++ suffix) <$> line_suffixes.

(** The lines at positions [5k .. 5k+4]. *)
Definition lines_of_batch (k : nat) (lns : list Line.t) : list Line.t :=
  take 5 (drop (5 * k) lns).

(** Every point comes with the five lines at its position, which carry
    the ids of its batch (numbered from [c] on), start at the point's
    time and extend 15 bars. *)
Definition batched (c : nat) (pts : list Point.t) (lns : list Line.t)
    : Prop :=
  length lns = (5 * length pts)%nat
  ∧ ∀ k p, pts !! k = Some p →
      ∃ e s t1 t2 t3,
        lines_of_batch k lns = [e; s; t1; t2; t3]
        ∧ Line.id <$> [e; s; t1; t2; t3] = batch_ids (c + k)
        ∧ Forall (λ l, Line.start_time l = Point.time p
                       ∧ Line.bars l = 15%Z) [e; s; t1; t2; t3].

(** The line ids are those of the batches numbered from [c] on. *)
Definition numbered (c : nat) (pts : list Point.t) (lns : list Line.t)
    : Prop :=
  Line.id <$> lns = seq c (length pts) ≫= batch_ids.

(** The loop invariant, for a loop entered with counter [c] and empty
    lists. *)
Definition loop_inv (c : nat) (st : LoopState) : Prop :=
  signal_count st = (c + length (points st))%nat
  ∧ batched c (points st) (lines st)
  ∧ numbered c (points st) (lines st).

(** The value a string of decimal digits denotes, leading zeros
    allowed. *)
Definition decode_nat (s : string) : option nat :=
  Nat.of_uint <$> NilEmpty.uint_of_string s.

(** Two invocations in a row, as a caller would make them. *)
Definition generate_signals_twice (bars : list Bar.t) :=
  first ← generate_signals bars;
  second ← generate_signals bars;
  Some (first, second).

(** The loop started from an arbitrary counter, to compare with the
    restart at zero. *)
Definition loop_from (count : nat) (bars : list Bar.t) : option LoopState :=
  for_each (loop_body bars) (range2 (length bars))
    {| points := []; lines := []; signal_count := count |}.

(** The bar fetch of [run_once], run from the start of [run_once]. *)
Definition run_once_fetch (env : Env) : M (option (list Bar.t)) :=
  run_once_banner env;;
  get_bars env SYMBOL TIMEFRAME 500.

(** The request [get_bars] sends. *)
Definition bars_request (symbol : string) (timeframe limit : Z)
    : GetRequest :=
  {| get_url := "https://api.innova-trading.com/api/external/bars";
     get_symbol := symbol;
     get_timeframe := timeframe;
     get_limit := limit;
     get_headers := [("Authorization", "Bearer tu_api_key_aqui")];
     get_timeout := 30 |}.

(** The request [submit_signals] sends. *)
Definition submit_request (indicator_id symbol : string) (timeframe : Z)
    (indicator_name : string) (points : list Point.t)
    (lines : option (list Line.t))
    (metadata : option (list (string * MetaValue))) : PostRequest :=
  {| post_url :=
       "https://api.innova-trading.com/api/external/indicators/"
         ++ indicator_id;
     post_json :=
       {| payload_symbol := symbol;
          payload_timeframe := timeframe;
          payload_indicator_name := indicator_name;
          payload_version := "1.0";
          payload_points := points;
          payload_lines := default [] lines;
          payload_metadata := default [] metadata |};
     post_headers := [("Authorization", "Bearer tu_api_key_aqui");
                      ("Content-Type", "application/json")];
     post_timeout := 30 |}.

(** ** Sample inputs *)

(** A wide bar, two bars each inside its predecessor (the first closing
    above the midpoint of its predecessor, the second on the midpoint of
    its own), and a bar that breaks out. *)
Definition sample_bars : list Bar.t :=
  [ Bar.mk 3600 1.1000 1.1100 1.0900 1.1000 100;
    Bar.mk 7200 1.1040 1.1050 1.1030 1.1040 100;
    Bar.mk 10800 1.1040 1.1048 1.1032 1.1045 100;
    Bar.mk 14400 1.1040 1.1046 1.1034 1.1040 100;
    Bar.mk 18000 1.1040 1.1060 1.1020 1.1050 100 ]%Q.

(** Two bars only, the second inside the first. *)
Definition two_bars : list Bar.t := take 2 sample_bars.

(** Three binary64 bars around 1, one unit in the last place apart
    ([2^-52]): the second spans [1, 1 + 3 * 2^-52]; the third is inside
    it and closes at [1 + 2 * 2^-52].  The exact midpoint of the second
    is [1 + 1.5 * 2^-52], below that close; the sum [high + low] rounds
    up, and the midpoint the script computes is the close itself. *)
Definition rounding_bars : list Binary64.Bar.t :=
  [ Binary64.Bar.mk 3600 1 2 0.5 1 100;
    Binary64.Bar.mk 7200 1 0x1.0000000000003p+0 1 1 100;
    Binary64.Bar.mk 10800 1 0x1.0000000000002p+0 0x1.0000000000001p+0
      0x1.0000000000002p+0 100 ]%float.

(** The same three bars, each field with its exact value. *)
Definition rounding_bars_exact : list Bar.t :=
  [ Bar.mk 3600 1 2 (1 # 2) 1 100;
    Bar.mk 7200 1 (1 + 3 * (1 # 2 ^ 52)) 1 1 100;
    Bar.mk 10800 1 (1 + 2 * (1 # 2 ^ 52)) (1 + 1 * (1 # 2 ^ 52))
      (1 + 2 * (1 # 2 ^ 52)) 100 ]%Q.

(** Binary64 bars with exactly representable prices: a wide bar, a bar
    inside it, and a bar inside that one closing above its midpoint. *)
Definition dyadic_bars : list Binary64.Bar.t :=
  [ Binary64.Bar.mk 3600 1.5 2 1 1.5 100;
    Binary64.Bar.mk 7200 1.5 1.75 1.25 1.5 100;
    Binary64.Bar.mk 10800 1.5 1.625 1.375 1.5625 100 ]%float.

(** Three bars with no inside bar from index 2 on. *)
Definition trending_bars : list Bar.t :=
  [ Bar.mk 3600 1.1000 1.1010 1.0990 1.1005 100;
    Bar.mk 7200 1.1005 1.1020 1.1000 1.1015 100;
    Bar.mk 10800 1.1015 1.1030 1.1010 1.1025 100 ]%Q.

Definition empty_world : World :=
  {| console := []; gets := []; posts := []; clock_reads := 0 |}.

Definition sample_clock (n : nat) : string := "2024-01-01T00:00:00+00:00".

(** A server that accepts every submission, and serves the given bars
    response. *)
Definition env_serving (bars_response : Exn + Response BarsObject) : Env :=
  {| http_get := λ _ _, bars_response;
     http_post := λ _ _,
       inr (mkResponse 201 ""
              (JsonObject (mkSubmitObject (Some 1%Z) (Some 5%Z)
                             (Some "2024-01-02T00:00:00Z"))));
     utcnow_isoformat := sample_clock |}.

(** A body that is not JSON. *)
Definition not_json : Exn :=
  mkExn JSONDecodeError "Expecting value: line 1 column 1 (char 0)".

(** A status 200 answer to the bars request whose body is an HTML page. *)
Definition html_bars_response : Response BarsObject :=
  mkResponse 200 "<html></html>" (Undecodable not_json).

(** A server that answers submissions with the given response. *)
Definition env_answering (submit_response : Exn + Response SubmitObject)
    : Env :=
  {| http_get := λ _ _,
       inr (mkResponse 200 "" (JsonObject (mkBarsObject (Some sample_bars))));
     http_post := λ _ _, submit_response;
     utcnow_isoformat := sample_clock |}.

(** A status 201 answer to a submission, with an empty body. *)
Definition created_empty_body : Response SubmitObject :=
  mkResponse 201 "" (Undecodable not_json).

(** ** [run_continuous] *)

(** The continuous mode also sleeps: a session is the world together
    with the sleeps taken so far, in seconds. *)
Record Session := mkSession {
  world : World;
  sleeps : list Z
}.

(** The operator at the keyboard: whether Ctrl+C arrives during the
    [n]-th sleep.  The loop spends its time sleeping; an interrupt in the
    middle of a cycle is outside this model. *)
Definition Operator : Type := nat → bool.

(** What [time.sleep] depends on besides its argument: the longest
    length, in seconds, that converts to the time type of the
    interpreter, and [str(e)] of the [OverflowError] raised beyond it.
    CPython 3.11 on a 64-bit platform: 9223372036 seconds (the time type
    counts nanoseconds in 64 bits). *)
Record Platform := mkPlatform {
  sleep_limit : Z;
  overflow_str : string
}.

(** How a call of [time.sleep] ends. *)
Inductive SleepEnd :=
| Woke                 (* the time elapsed *)
| SleepInterrupted     (* [KeyboardInterrupt] raised out of the sleep *)
| SleepOverflowError   (* the length does not convert *)
| SleepValueError.     (* the length is negative *)

(** [time.sleep(seconds)] on an integer: the length is converted first,
    then refused when negative, and only then is any sleeping done. *)
Definition time_sleep (platform : Platform) (operator : Operator)
    (seconds : Z) (s : Session) : Session * SleepEnd :=
  if (sleep_limit platform <? Z.abs seconds)%Z then (s, SleepOverflowError)
  else if (seconds <? 0)%Z then (s, SleepValueError)
  else
    (mkSession (world s) (sleeps s ++ [seconds]),
     if operator (length (sleeps s)) then SleepInterrupted else Woke).

(** [print] in a session. *)
Definition session_print (line : string) (s : Session) : Session :=
  mkSession (print line (world s)).1 (sleeps s).

(** [str(e)] of the [ValueError] of [time.sleep]. *)
Definition sleep_value_error : string :=
  "sleep length must be non-negative".

(** How one pass through the body of [while True] ends: the loop goes
    round again, [break] leaves it, or an exception leaves
    [run_continuous] altogether. *)
Inductive IterationEnd :=
| Continue
| Break
| PropagateKeyboardInterrupt
| PropagateOverflowError
| PropagateValueError.

(** The handler [except Exception as e]: two lines and a sleep that no
    [try] protects. *)
Definition retry_handler (platform : Platform) (operator : Operator)
    (interval_seconds : Z) (message : string) (s : Session)
    : Session * IterationEnd :=
  let s1 := session_print (nl ++ "Error: " ++ message) s in
  let s2 := session_print ("Reintentando en " ++ str_Z interval_seconds
                           ++ " segundos..." ++ nl) s1 in
  match time_sleep platform operator interval_seconds s2 with
  | (s3, Woke) => (s3, Continue)
  | (s3, SleepInterrupted) => (s3, PropagateKeyboardInterrupt)
  | (s3, SleepOverflowError) => (s3, PropagateOverflowError)
  | (s3, SleepValueError) => (s3, PropagateValueError)
  end.

(** The handler [except KeyboardInterrupt]. *)
Definition interrupt_handler (s : Session) : Session * IterationEnd :=
  (session_print (nl ++ nl ++ "Detenido por el usuario") s, Break).

(** The body of [while True].  The call [run_once()] is a parameter: the
    loop is the same whatever a run does, and a run may also end in an
    exception (on an answer that the typed responses above leave out,
    such as a bar without its keys). *)
Definition loop_iteration (run_once : M bool) (platform : Platform)
    (operator : Operator) (interval_seconds : Z) (s : Session)
    : Session * IterationEnd :=
  match run_once (world s) with
  | (w, Returns _) =>
      let s1 := session_print (nl ++ "Proxima ejecucion en "
                               ++ str_Z interval_seconds ++ " segundos..."
                               ++ nl) (mkSession w (sleeps s)) in
      match time_sleep platform operator interval_seconds s1 with
      | (s2, Woke) => (s2, Continue)
      | (s2, SleepInterrupted) => interrupt_handler s2
      | (s2, SleepOverflowError) =>
          retry_handler platform operator interval_seconds
            (overflow_str platform) s2
      | (s2, SleepValueError) =>
          retry_handler platform operator interval_seconds
            sleep_value_error s2
      end
  | (w, Raises e) =>
      retry_handler platform operator interval_seconds (exn_str e)
        (mkSession w (sleeps s))
  end.

(** How [run_continuous] ends, when it does. *)
Inductive LoopEnd :=
| Stopped                     (* left by [break]: returns normally *)
| UncaughtKeyboardInterrupt
| UncaughtOverflowError
| UncaughtValueError.

(** [while True], for at most [fuel] iterations: [None] when the loop is
    still running after them. *)
Fixpoint while_true (fuel : nat) (run_once : M bool) (platform : Platform)
    (operator : Operator) (interval_seconds : Z) (s : Session)
    : option (Session * LoopEnd) :=
  match fuel with
  | O => None
  | S fuel' =>
      match loop_iteration run_once platform operator interval_seconds s
      with
      | (s', Continue) =>
          while_true fuel' run_once platform operator interval_seconds s'
      | (s', Break) => Some (s', Stopped)
      | (s', PropagateKeyboardInterrupt) =>
          Some (s', UncaughtKeyboardInterrupt)
      | (s', PropagateOverflowError) => Some (s', UncaughtOverflowError)
      | (s', PropagateValueError) => Some (s', UncaughtValueError)
      end
  end.

(** The session in which the loop is entered: the two opening lines. *)
Definition run_continuous_start (interval_seconds : Z) (w : World)
    : Session :=
  let s1 := session_print ("Iniciando modo continuo (cada "
                           ++ str_Z interval_seconds ++ " segundos)")
              (mkSession w []) in
  session_print ("Presiona Ctrl+C para detener" ++ nl) s1.

Definition run_continuous (fuel : nat) (run_once : M bool)
    (platform : Platform) (operator : Operator) (interval_seconds : Z)
    (w : World) : option (Session * LoopEnd) :=
  while_true fuel run_once platform operator interval_seconds
    (run_continuous_start interval_seconds w).

(** ** Vocabulary of the further statements *)

(** The pairs the loop of [generate_signals] looks at, in order:
    [(bars[1], bars[2])], [(bars[2], bars[3])], ... *)
Definition examined_pairs (bars : list Bar.t) : list (Bar.t * Bar.t) :=
  zip (drop 1 bars) (drop 2 bars).

(** Those of them whose second bar is inside the first. *)
Definition inside_pairs (bars : list Bar.t) : list (Bar.t * Bar.t) :=
  filter (λ pair, is_inside_bar pair.1 pair.2 = true) (examined_pairs bars).

(** The signals of a list of inside pairs, batch [k] for the [k]-th
    pair: the points, the lines, and the counter reached. *)
Definition signals_of (pairs : list (Bar.t * Bar.t)) : LoopState :=
  {| points := imap (λ k pair, (signal_batch k pair.1 pair.2).1) pairs;
     lines :=
       concat (imap (λ k pair, (signal_batch k pair.1 pair.2).2) pairs);
     signal_count := length pairs |}.

(** Two bars with the same time, high, low and close. *)
Definition same_quote (a b : Bar.t) : Prop :=
  Bar.time a = Bar.time b ∧ Bar.high a = Bar.high b
  ∧ Bar.low a = Bar.low b ∧ Bar.close a = Bar.close b.

(** The metadata [run_once] attaches to a submission. *)
Definition run_once_metadata (generated_at : string)
    (points : list Point.t) (lines : list Line.t)
    : list (string * MetaValue) :=
  [("generated_at", MetaStr generated_at);
   ("total_points", MetaInt (Z.of_nat (length points)));
   ("total_lines", MetaInt (Z.of_nat (length lines)));
   ("buy_count", MetaInt (Z.of_nat (count_label "BUY" points)));
   ("sell_count", MetaInt (Z.of_nat (count_label "SELL" points)));
   ("strategy", MetaStr "Inside Bar with Multi-TP + Lines")].

(** The submission [run_once] sends for given signals. *)
Definition run_once_request (generated_at : string)
    (points : list Point.t) (lines : list Line.t) : PostRequest :=
  submit_request INDICATOR_ID SYMBOL TIMEFRAME INDICATOR_NAME points
    (Some lines) (Some (run_once_metadata generated_at points lines)).

(** An operator who never interrupts, and one who interrupts the [n]-th
    sleep only. *)
Definition never_interrupts : Operator := λ _, false.
Definition interrupts_at (n : nat) : Operator := λ k, bool_decide (k = n).

(** CPython 3.11 on a 64-bit platform. *)
Definition cpython_64 : Platform :=
  {| sleep_limit := 9223372036;
     overflow_str := "timestamp too large to convert to C _PyTime_t" |}.






(** A run that ends in the given exception. *)
Definition raising_run (e : Exn) : M bool := raise e.

(** A server whose bars endpoint is unreachable. *)
Definition env_unreachable : Env :=
  env_serving (inl (mkExn RequestException "Connection refused")).

Local Open Scope nat_scope.
Local Open Scope list_scope.

(** ** Comparisons on prices *)

Lemma Qlt_bool_iff (a b : Q) : Qlt_bool a b = true ↔ (a < b)%Q.
Proof.
  unfold Qlt_bool. rewrite negb_true_iff.
  split.
  - intros Hle. apply Qnot_le_lt. intros Hba.
    apply Qle_bool_iff in Hba. congruence.
  - intros Hlt. destruct (Qle_bool b a) eqn:Hba; [|done].
    apply Qle_bool_iff in Hba. by apply Qlt_not_le in Hlt.
Qed.

Lemma Qgt_bool_iff (a b : Q) : Qgt_bool a b = true ↔ (b < a)%Q.
Proof. apply Qlt_bool_iff. Qed.

Lemma is_inside_bar_iff (prev curr : Bar.t) :
  is_inside_bar prev curr = true ↔
  (Bar.high curr < Bar.high prev)%Q ∧ (Bar.low prev < Bar.low curr)%Q.
Proof.
  unfold is_inside_bar.
  by rewrite andb_true_iff, Qlt_bool_iff, Qgt_bool_iff.
Qed.


(** ** The loop, one index at a time *)

Lemma range2_small (n : nat) : n ≤ 2 → range2 n = [].
Proof. intros Hn. unfold range2. by replace (n - 2) with 0 by lia. Qed.

Lemma range2_S (n : nat) : 2 ≤ n → range2 (S n) = range2 n ++ [n].
Proof.
  intros Hn. unfold range2.
  replace (S n - 2) with (S (n - 2)) by lia.
  rewrite seq_S. do 2 f_equal. lia.
Qed.

Lemma for_each_app body (l1 l2 : list nat) (st : LoopState) :
  for_each body (l1 ++ l2) st = for_each body l1 st ≫= for_each body l2.
Proof.
  revert st. induction l1 as [|i l1 IH]; intros st; simpl; [done|].
  destruct (body st i); [apply IH | done].
Qed.

Section Loop.
Context (bars : list Bar.t).

Lemma loop_upto_small (n : nat) :
  n ≤ 2 → loop_upto bars n = Some init_state.
Proof. intros Hn. unfold loop_upto. by rewrite range2_small. Qed.

Lemma loop_upto_S (n : nat) :
  2 ≤ n →
  loop_upto bars (S n) = loop_upto bars n ≫= λ st, loop_body bars st n.
Proof.
  intros Hn. unfold loop_upto. rewrite range2_S, for_each_app by done.
  destruct (for_each _ _ _) as [st|]; simpl; [|done].
  by destruct (loop_body bars st n).
Qed.

(** What one iteration does to the state, case by case. *)
Lemma loop_body_spec (st : LoopState) (i : nat)
    (prev curr : Bar.t) :
  bars !! (i - 1) = Some prev →
  bars !! i = Some curr →
  loop_body bars st i =
    Some (if is_inside_bar prev curr
          then {| points := points st
                      ++ [(signal_batch (signal_count st) prev curr).1];
                  lines := lines st
                      ++ (signal_batch (signal_count st) prev curr).2;
                  signal_count := S (signal_count st) |}
          else st).
Proof.
  intros Hprev Hcurr. unfold loop_body. rewrite Hprev, Hcurr. simpl.
  destruct (is_inside_bar prev curr); simpl; [|done].
  by destruct (signal_batch _ _ _).
Qed.

(** No subscript of the loop is out of range. *)
Lemma loop_body_total (st : LoopState) (i : nat) :
  2 ≤ i → i < length bars → is_Some (loop_body bars st i).
Proof.
  intros Hi Hlen.
  destruct (lookup_lt_is_Some_2 bars (i - 1)) as [prev Hprev]; [lia|].
  destruct (lookup_lt_is_Some_2 bars i) as [curr Hcurr]; [done|].
  rewrite (loop_body_spec _ _ _ _ Hprev Hcurr). eauto.
Qed.

Lemma loop_upto_total (n : nat) :
  n ≤ length bars → is_Some (loop_upto bars n).
Proof.
  induction n as [|n IH]; intros Hn.
  - rewrite loop_upto_small by lia. eauto.
  - destruct (decide (2 ≤ n)) as [H2|H2].
    + rewrite loop_upto_S by done.
      destruct IH as [st ->]; [lia|]. simpl.
      apply loop_body_total; lia.
    + rewrite loop_upto_small by lia. eauto.
Qed.

Lemma generate_signals_loop :
  ∃ st, loop_upto bars (length bars) = Some st
        ∧ generate_signals bars = Some (points st, lines st).
Proof.
  destruct (loop_upto_total (length bars)) as [st Hst]; [done|].
  exists st. split; [done|]. unfold generate_signals. by rewrite Hst.
Qed.

(** The two lists only grow while the loop runs. *)
Lemma loop_upto_mono (n m : nat) (st st' : LoopState) :
  n ≤ m → m ≤ length bars →
  loop_upto bars n = Some st → loop_upto bars m = Some st' →
  points st `prefix_of` points st' ∧ lines st `prefix_of` lines st'.
Proof.
  intros Hnm. revert st'. induction Hnm as [|m Hnm IH]; intros st' Hm Hst Hst'.
  - by simplify_eq.
  - destruct (decide (2 ≤ m)) as [H2|H2].
    + rewrite loop_upto_S in Hst' by done.
      destruct (loop_upto bars m) as [stm|] eqn:Hstm; [|done]. simpl in Hst'.
      destruct (IH stm) as [Hp Hl]; [lia|done|done|].
      destruct (lookup_lt_is_Some_2 bars (m - 1)) as [prev Hprev]; [lia|].
      destruct (lookup_lt_is_Some_2 bars m) as [curr Hcurr]; [lia|].
      rewrite (loop_body_spec _ _ _ _ Hprev Hcurr) in Hst'.
      destruct (is_inside_bar prev curr); simplify_eq; simpl; [|done].
      split; by apply prefix_app_r.
    + rewrite loop_upto_small in Hst, Hst' by lia. by simplify_eq.
Qed.

(** The step at a valid index [i ≥ 2], placed in the whole run: the state
    before, the state after, and the state the function returns from. *)
Lemma loop_index_step (i : nat) (prev curr : Bar.t) :
  2 ≤ i →
  bars !! (i - 1) = Some prev →
  bars !! i = Some curr →
  ∃ st st' final,
    loop_upto bars i = Some st
    ∧ loop_upto bars (S i) = Some st'
    ∧ loop_body bars st i = Some st'
    ∧ loop_upto bars (length bars) = Some final
    ∧ generate_signals bars = Some (points final, lines final)
    ∧ points st' `prefix_of` points final
    ∧ lines st' `prefix_of` lines final.
Proof.
  intros Hi Hprev Hcurr.
  assert (i < length bars) as Hlen by by eapply lookup_lt_Some.
  destruct (loop_upto_total i) as [st Hst]; [lia|].
  destruct (loop_body_total st i) as [st' Hst']; [done..|].
  destruct generate_signals_loop as (final & Hfinal & Hgen).
  assert (loop_upto bars (S i) = Some st') as HS.
  { rewrite loop_upto_S by done. by rewrite Hst. }
  exists st, st', final. repeat split; try done.
  - by eapply (loop_upto_mono (S i) (length bars)).
  - by eapply (loop_upto_mono (S i) (length bars)).
Qed.


End Loop.

(** The shape of a batch, whichever branch builds it. *)
Lemma signal_batch_shape (count : nat) (prev curr : Bar.t) :
  ∃ p e s t1 t2 t3,
    signal_batch count prev curr = (p, [e; s; t1; t2; t3])
    ∧ Line.id <$> [e; s; t1; t2; t3] = batch_ids count
    ∧ Forall (λ l, Line.start_time l = Point.time p ∧ Line.bars l = 15%Z)
        [e; s; t1; t2; t3]
    ∧ Point.time p = Bar.time curr
    ∧ Point.price p = Bar.close curr
    ∧ Line.price e = Bar.close curr.
Proof.
  unfold signal_batch, buy_signal, sell_signal, signal_lines.
  destruct (is_bullish prev curr);
    (do 6 eexists; split; [reflexivity|]);
    repeat split; repeat constructor.
Qed.

(** ** Detection *)

(** C1, as the code has it: the loop starts at index 2.  At every index
    [i ≥ 2] of the bar sequence, if the bar is strictly inside its
    predecessor (lower high, higher low) the iteration appends exactly one
    point and exactly five lines, and otherwise it appends nothing; what
    has been appended stays in the returned lists; before index 2 nothing
    has been appended. *)
Theorem generate_signals_emits_per_index
    (bars : list Bar.t) (i : nat) (prev curr : Bar.t) :
  2 ≤ i →
  bars !! (i - 1) = Some prev →
  bars !! i = Some curr →
  ∃ st st' pts lns,
    loop_upto bars 2 = Some init_state
    ∧ loop_upto bars i = Some st
    ∧ loop_upto bars (S i) = Some st'
    ∧ generate_signals bars = Some (pts, lns)
    ∧ points st' `prefix_of` pts
    ∧ lines st' `prefix_of` lns
    ∧ ((Bar.high curr < Bar.high prev)%Q ∧ (Bar.low curr > Bar.low prev)%Q →
       ∃ p l1 l2 l3 l4 l5,
         points st' = points st ++ [p]
         ∧ lines st' = lines st ++ [l1; l2; l3; l4; l5])
    ∧ (¬ ((Bar.high curr < Bar.high prev)%Q
          ∧ (Bar.low curr > Bar.low prev)%Q) →
       points st' = points st ∧ lines st' = lines st).
Proof.
  intros Hi Hprev Hcurr.
  destruct (loop_index_step bars i prev curr)
    as (st & st' & final & Hst & Hst' & Hbody & _ & Hgen & Hp & Hl);
    [done..|].
  exists st, st', (points final), (lines final).
  rewrite (loop_body_spec _ _ _ _ _ Hprev Hcurr) in Hbody.
  split_and!; try done.
  - intros Hin. apply is_inside_bar_iff in Hin. rewrite Hin in Hbody.
    destruct (signal_batch_shape (signal_count st) prev curr)
      as (p & e & s & t1 & t2 & t3 & Hb & _).
    rewrite Hb in Hbody. simplify_eq. simpl. by exists p, e, s, t1, t2, t3.
  - intros Hout. destruct (is_inside_bar prev curr) eqn:Hin; [|by simplify_eq].
    destruct Hout. by apply is_inside_bar_iff.
Qed.

(** Index 2 of the sample bars is an inside bar. *)
Lemma generate_signals_emits_per_index_witness :
  ∃ st st' pts lns,
    loop_upto sample_bars 2 = Some init_state
    ∧ loop_upto sample_bars 2 = Some st
    ∧ loop_upto sample_bars 3 = Some st'
    ∧ generate_signals sample_bars = Some (pts, lns)
    ∧ points st' `prefix_of` pts
    ∧ lines st' `prefix_of` lns
    ∧ ((1.1048 < 1.1050)%Q ∧ (1.1032 > 1.1030)%Q →
       ∃ p l1 l2 l3 l4 l5,
         points st' = points st ++ [p]
         ∧ lines st' = lines st ++ [l1; l2; l3; l4; l5])
    ∧ (¬ ((1.1048 < 1.1050)%Q ∧ (1.1032 > 1.1030)%Q) →
       points st' = points st ∧ lines st' = lines st).
Proof.
  apply (generate_signals_emits_per_index sample_bars 2
           (Bar.mk 7200 1.1040 1.1050 1.1030 1.1040 100)
           (Bar.mk 10800 1.1040 1.1048 1.1032 1.1045 100));
    [lia | reflexivity | reflexivity].
Defined.

(** C1 as stated fails on the first pair: bars 0 and 1 are consecutive and
    bar 1 is strictly inside bar 0, yet nothing at all is emitted. *)
Lemma generate_signals_skips_first_pair :
  ∃ prev curr,
    two_bars !! 0 = Some prev
    ∧ two_bars !! 1 = Some curr
    ∧ (Bar.high curr < Bar.high prev)%Q
    ∧ (Bar.low curr > Bar.low prev)%Q
    ∧ generate_signals two_bars = Some ([], []).
Proof.
  do 2 eexists. split; [reflexivity|]. split; [reflexivity|].
  repeat split.
Qed.

(** ** The loop on binary64 *)

Section Binary64Loop.
Context (bars : list Binary64.Bar.t).






End Binary64Loop.

(** ** Direction and price levels *)





(** ** Signal ids can be read back *)

Lemma append_empty (s : string) : ("" ++ s)%string = s.
Proof. reflexivity. Qed.

Lemma append_String (c : ascii) (s t : string) :
  (String c s ++ t)%string = String c (s ++ t).
Proof. reflexivity. Qed.

Create Rewrite HintDb string_append.
#[local] Hint Rewrite append_empty append_String : string_append.

Lemma uint_of_string_zeros (w : nat) (s : string) :
  NilEmpty.uint_of_string (zeros w ++ s)%string
  = Nat.iter w Decimal.D0 <$> NilEmpty.uint_of_string s.
Proof.
  induction w as [|w IH]; simpl.
  - autorewrite with string_append.
    by destruct (NilEmpty.uint_of_string s).
  - rewrite IH. by destruct (NilEmpty.uint_of_string s).
Qed.

Lemma of_uint_zeros (w : nat) (d : Decimal.uint) :
  Nat.of_uint (Nat.iter w Decimal.D0 d) = Nat.of_uint d.
Proof. induction w as [|w IH]; [done|]. simpl. exact IH. Qed.

Lemma decode_zfill (w n : nat) : decode_nat (zfill w (str_nat n)) = Some n.
Proof.
  unfold decode_nat, zfill, str_nat.
  rewrite uint_of_string_zeros, NilEmpty.usu. simpl.
  by rewrite of_uint_zeros, DecimalNat.Unsigned.of_to.
Qed.

Lemma format_03d_inj : Inj (=) (=) format_03d.
Proof.
  intros k n Heq.
  assert (decode_nat (format_03d k) = decode_nat (format_03d n)) as Hdec
    by by rewrite Heq.
  unfold format_03d in Hdec. rewrite !decode_zfill in Hdec. by simplify_eq.
Qed.

(** An underscore ends a run of digits: the two sides of it are
    determined by the whole string. *)
Lemma digits_underscore_split (d1 d2 r1 r2 : string) :
  is_Some (NilEmpty.uint_of_string d1) →
  is_Some (NilEmpty.uint_of_string d2) →
  (d1 ++ String "_" r1 = d2 ++ String "_" r2)%string →
  d1 = d2 ∧ r1 = r2.
Proof.
  revert d2. induction d1 as [|c1 d1 IH]; intros [|c2 d2] H1 H2 Heq;
    autorewrite with string_append in Heq; simpl in *.
  - by simplify_eq.
  - simplify_eq. destruct H2 as [? H2].
    by destruct (NilEmpty.uint_of_string d2).
  - simplify_eq. destruct H1 as [? H1].
    by destruct (NilEmpty.uint_of_string d1).
  - simplify_eq. destruct (IH d2) as [-> ->]; try done.
    + destruct (NilEmpty.uint_of_string d1); [eauto|]. by destruct H1.
    + destruct (NilEmpty.uint_of_string d2); [eauto|]. by destruct H2.
Qed.

Lemma format_03d_digits (n : nat) :
  is_Some (NilEmpty.uint_of_string (format_03d n)).
Proof.
  unfold format_03d, zfill, str_nat.
  rewrite uint_of_string_zeros, NilEmpty.usu. simpl. eauto.
Qed.

Lemma line_suffix_underscore (a : string) :
  a ∈ line_suffixes → ∃ r, a = String "_" r.
Proof.
  unfold line_suffixes. intros Ha.
  repeat (apply elem_of_cons in Ha as [-> | Ha]; [eauto|]).
  by apply elem_of_nil in Ha.
Qed.

(** A line id determines its batch number and its role. *)
Lemma batch_id_inj (k n : nat) (a b : string) :
  a ∈ line_suffixes → b ∈ line_suffixes →
  (signal_id k ++ a = signal_id n ++ b)%string →
  k = n ∧ a = b.
Proof.
  intros Ha Hb Heq. unfold signal_id in Heq.
  autorewrite with string_append in Heq. simplify_eq.
  apply line_suffix_underscore in Ha as [ra ->].
  apply line_suffix_underscore in Hb as [rb ->].
  apply digits_underscore_split in Heq as [Hfmt ->];
    [|apply format_03d_digits..].
  by apply format_03d_inj in Hfmt.
Qed.

Lemma elem_of_batch_ids (x : string) (k : nat) :
  x ∈ batch_ids k ↔ ∃ a, a ∈ line_suffixes ∧ x = (signal_id k ++ a)%string.
Proof.
  unfold batch_ids. rewrite list_elem_of_fmap.
  split; intros (a & H1 & H2); eauto.
Qed.

Lemma batch_ids_NoDup (k : nat) : NoDup (batch_ids k).
Proof.
  unfold batch_ids. apply NoDup_fmap_2.
  - intros a b Heq. by apply String.app_inj in Heq.
  - apply (bool_decide_unpack _). by vm_compute.
Qed.

Lemma bind_batch_ids_singleton (k : nat) : [k] ≫= batch_ids = batch_ids k.
Proof. reflexivity. Qed.

Lemma elem_of_numbered_ids (x : string) (c n : nat) :
  x ∈ seq c n ≫= batch_ids → ∃ k, c ≤ k < c + n ∧ x ∈ batch_ids k.
Proof.
  rewrite list_elem_of_bind. intros (k & Hx & Hk).
  apply elem_of_seq in Hk. eauto.
Qed.

(** Batches numbered consecutively never share an id. *)
Lemma numbered_ids_NoDup (c n : nat) : NoDup (seq c n ≫= batch_ids).
Proof.
  induction n as [|n IH]; [apply NoDup_nil_2|].
  rewrite seq_S, bind_app, bind_batch_ids_singleton.
  apply NoDup_app. split_and!; [done| |apply batch_ids_NoDup].
  intros x Hold Hnew.
  apply elem_of_numbered_ids in Hold as (k & Hk & Hold).
  apply elem_of_batch_ids in Hold as (a & Ha & ->).
  apply elem_of_batch_ids in Hnew as (b & Hb & Heq).
  apply batch_id_inj in Heq as [? _]; [lia|done..].
Qed.

(** ** The loop invariant *)

Lemma lines_of_batch_old (k : nat) (lns batch : list Line.t) :
  5 * k + 5 ≤ length lns →
  lines_of_batch k (lns ++ batch) = lines_of_batch k lns.
Proof.
  intros Hlen. unfold lines_of_batch.
  rewrite drop_app_le by lia. apply take_app_le. rewrite length_drop. lia.
Qed.

Lemma lines_of_batch_new (k : nat) (lns batch : list Line.t) :
  length lns = 5 * k → length batch = 5 →
  lines_of_batch k (lns ++ batch) = batch.
Proof.
  intros Hlen Hbatch. unfold lines_of_batch.
  rewrite drop_app_length' by done. apply take_ge. lia.
Qed.

Lemma batched_snoc (c : nat) (pts : list Point.t) (lns : list Line.t)
    (p : Point.t) (e s t1 t2 t3 : Line.t) :
  batched c pts lns →
  Line.id <$> [e; s; t1; t2; t3] = batch_ids (c + length pts) →
  Forall (λ l, Line.start_time l = Point.time p ∧ Line.bars l = 15%Z)
    [e; s; t1; t2; t3] →
  batched c (pts ++ [p]) (lns ++ [e; s; t1; t2; t3]).
Proof.
  intros [Hlen Hold] Hids Hnew. split.
  { rewrite !length_app. simpl. lia. }
  intros k q Hq. apply lookup_app_Some in Hq as [Hq | [Hk Hq]].
  - rewrite lines_of_batch_old; [by apply Hold|].
    apply lookup_lt_Some in Hq. lia.
  - apply list_lookup_singleton_Some in Hq as [Hk' <-].
    assert (k = length pts) as -> by lia.
    rewrite lines_of_batch_new by (done || lia). eauto 10.
Qed.

Lemma numbered_snoc (c : nat) (pts : list Point.t) (lns batch : list Line.t)
    (p : Point.t) :
  numbered c pts lns →
  Line.id <$> batch = batch_ids (c + length pts) →
  numbered c (pts ++ [p]) (lns ++ batch).
Proof.
  unfold numbered. intros Hold Hnew.
  rewrite fmap_app, length_app, Hold, Hnew. simpl.
  replace (length pts + 1) with (S (length pts)) by lia.
  by rewrite seq_S, bind_app, bind_batch_ids_singleton.
Qed.

Lemma loop_inv_init (c : nat) :
  loop_inv c {| points := []; lines := []; signal_count := c |}.
Proof.
  unfold loop_inv, batched, numbered. simpl. split_and!; try done; lia.
Qed.

Lemma loop_body_inv (c : nat) (bars : list Bar.t) (st st' : LoopState)
    (i : nat) :
  loop_inv c st → loop_body bars st i = Some st' → loop_inv c st'.
Proof.
  intros (Hcount & Hbatched & Hnumbered) Hbody.
  destruct (bars !! (i - 1)) as [prev|] eqn:Hprev;
    [|by unfold loop_body in Hbody; rewrite Hprev in Hbody].
  destruct (bars !! i) as [curr|] eqn:Hcurr;
    [|by unfold loop_body in Hbody; rewrite Hprev, Hcurr in Hbody].
  rewrite (loop_body_spec _ _ _ _ _ Hprev Hcurr) in Hbody.
  destruct (is_inside_bar prev curr); simplify_eq; [|done].
  destruct (signal_batch_shape (signal_count st) prev curr)
    as (p & e & s & t1 & t2 & t3 & -> & Hids & Hlines & _).
  rewrite Hcount in Hids. unfold loop_inv. simpl. split_and!.
  - rewrite length_app. simpl. lia.
  - by apply batched_snoc.
  - by apply numbered_snoc.
Qed.

Lemma for_each_inv (c : nat) (bars : list Bar.t) (indices : list nat)
    (st st' : LoopState) :
  loop_inv c st →
  for_each (loop_body bars) indices st = Some st' →
  loop_inv c st'.
Proof.
  revert st. induction indices as [|i indices IH]; intros st Hinv Hrun;
    simpl in Hrun.
  - by simplify_eq.
  - destruct (loop_body bars st i) as [st1|] eqn:Hbody; [|done].
    eapply IH; [|done]. by eapply loop_body_inv.
Qed.

Lemma generate_signals_inv (bars : list Bar.t) :
  ∃ st, generate_signals bars = Some (points st, lines st) ∧ loop_inv 0 st.
Proof.
  destruct (generate_signals_loop bars) as (st & Hst & Hgen).
  exists st. split; [done|].
  eapply for_each_inv; [apply (loop_inv_init 0) | exact Hst].
Qed.

(** ** Batches and ids *)

(** C10: the lines come in groups of five, one group per point and in the
    same order: [len(lines) = 5 * len(points)], and the lines at
    positions [5k .. 5k+4] are the entry, stop-loss, TP1, TP2 and TP3
    lines of the [k]-th point, each starting at that point's time and
    extending 15 bars. *)
Theorem generate_signals_five_lines_per_point (bars : list Bar.t) :
  ∃ pts lns,
    generate_signals bars = Some (pts, lns)
    ∧ length lns = 5 * length pts
    ∧ ∀ k p, pts !! k = Some p →
        ∃ entry sl tp1 tp2 tp3,
          lines_of_batch k lns = [entry; sl; tp1; tp2; tp3]
          ∧ Line.id <$> [entry; sl; tp1; tp2; tp3] = batch_ids k
          ∧ Forall (λ l, Line.start_time l = Point.time p
                         ∧ Line.bars l = 15%Z)
              [entry; sl; tp1; tp2; tp3].
Proof.
  destruct (generate_signals_inv bars) as (st & Hgen & _ & [Hlen Hb] & _).
  exists (points st), (lines st). split_and!; done.
Qed.

(** C5: within one invocation the line ids are pairwise distinct: they
    are, in order, the five ids [signal_NNN_entry], [_sl], [_tp1], [_tp2],
    [_tp3] of batch 0, then those of batch 1, and so on, one batch per
    point, with [NNN] the batch number zero-padded to three digits. *)
Theorem generate_signals_line_ids_distinct (bars : list Bar.t) :
  ∃ pts lns,
    generate_signals bars = Some (pts, lns)
    ∧ Line.id <$> lns = seq 0 (length pts) ≫= batch_ids
    ∧ NoDup (Line.id <$> lns)
    ∧ batch_ids 0 = [ "signal_000_entry"; "signal_000_sl";
                      "signal_000_tp1"; "signal_000_tp2";
                      "signal_000_tp3" ]%string
    ∧ signal_id 1 = "signal_001"%string
    ∧ ∀ k, signal_id k = ("signal_" ++ zfill 3 (str_nat k))%string.
Proof.
  destruct (generate_signals_inv bars) as (st & Hgen & _ & _ & Hids).
  exists (points st), (lines st). unfold numbered in Hids.
  split_and!; try done.
  rewrite Hids. apply numbered_ids_NoDup.
Qed.

(** C4: [generate_signals] depends on its argument alone: two invocations
    in a row on the same bars both return, with the same points and the
    same lines, ids included, since each invocation numbers its batches
    from [signal_000]; called from effectful code, it returns that same
    result in every world and leaves the world as it was. *)
Theorem generate_signals_deterministic (bars : list Bar.t) :
  ∃ pts lns,
    generate_signals_twice bars = Some ((pts, lns), (pts, lns))
    ∧ (∀ w : World, call_generate_signals bars w = (w, Returns (pts, lns)))
    ∧ generate_signals bars
      = (λ st, (points st, lines st)) <$> loop_from 0 bars
    ∧ Line.id <$> lns = seq 0 (length pts) ≫= batch_ids
    ∧ (∀ l, lns !! 0 = Some l → Line.id l = "signal_000_entry"%string).
Proof.
  destruct (generate_signals_inv bars) as (st & Hgen & _ & _ & Hids).
  exists (points st), (lines st). unfold numbered in Hids.
  split_and!; try done.
  - unfold generate_signals_twice. by rewrite Hgen.
  - intros w. unfold call_generate_signals. by rewrite Hgen.
  - intros l Hl.
    assert ((Line.id <$> lines st) !! 0 = Some (Line.id l)) as Hid
      by by rewrite list_lookup_fmap, Hl.
    rewrite Hids in Hid. destruct (points st) as [|p pts]; [done|].
    simpl in Hid. by simplify_eq.
Qed.

(** The restart matters: a loop entered with the counter at [c] numbers
    its batches from [c]. *)
Lemma loop_from_numbering (c : nat) (bars : list Bar.t) (st : LoopState) :
  loop_from c bars = Some st →
  Line.id <$> lines st = seq c (length (points st)) ≫= batch_ids.
Proof.
  intros Hrun.
  by destruct (for_each_inv c bars _ _ _ (loop_inv_init c) Hrun)
    as (_ & _ & Hids).
Qed.

(** ** The HTTP calls and the single-shot run *)

Lemma bind_run {A B} (m : M A) (k : A → M B) (w : World) :
  (m ≫= k) w = match m w with
               | (w', Returns a) => k a w'
               | (w', Raises e) => (w', Raises e)
               end.
Proof. reflexivity. Qed.

Section SingleShot.
Context (env : Env).

(** What [get_bars] does, by cases on the answer to its one request. *)
Lemma get_bars_run (symbol : string) (timeframe limit : Z)
    (w : World) :
  ∃ w' result,
    get_bars env symbol timeframe limit w = (w', Returns result)
    ∧ gets w' = gets w ++ [bars_request symbol timeframe limit]
    ∧ posts w' = posts w
    ∧ result =
        match http_get env (bars_request symbol timeframe limit)
                (length (gets w)) with
        | inl _ => None
        | inr response =>
            if (status_code response =? 200)%Z then
              match json response with
              | JsonObject data => Some (default [] (bars_key data))
              | Undecodable _ => None
              end
            else None
        end.
Proof.
  unfold get_bars, try_except. rewrite bind_run.
  unfold requests_get, bars_request. simpl.
  destruct (http_get env _ _) as [e|response]; simpl.
  { eexists _, _. split_and!; reflexivity. }
  destruct (status_code response =? 200)%Z.
  - rewrite bind_run. unfold response_json.
    destruct (json response) as [e|data]; simpl;
      eexists _, _; split_and!; reflexivity.
  - eexists _, _. split_and!; reflexivity.
Qed.

(** C6, as the code has it: [get_bars] sends exactly one request and
    always returns.  On status 200 with a body that decodes to a JSON
    object it returns the value under [bars], or the empty list when the
    key is missing; it returns [None] on any other status, on a transport
    failure, and also on a status 200 whose body does not decode to a JSON
    object. *)
Theorem get_bars_outcome (symbol : string)
    (timeframe limit : Z) (w : World) :
  ∃ w' result,
    get_bars env symbol timeframe limit w = (w', Returns result)
    ∧ gets w' = gets w ++ [bars_request symbol timeframe limit]
    ∧ posts w' = posts w
    ∧ (∀ response data,
         http_get env (bars_request symbol timeframe limit) (length (gets w))
           = inr response →
         status_code response = 200%Z →
         json response = JsonObject data →
         (∀ bars, bars_key data = Some bars → result = Some bars)
         ∧ (bars_key data = None → result = Some []))
    ∧ (∀ response e,
         http_get env (bars_request symbol timeframe limit) (length (gets w))
           = inr response →
         status_code response = 200%Z →
         json response = Undecodable e →
         result = None)
    ∧ (∀ response,
         http_get env (bars_request symbol timeframe limit) (length (gets w))
           = inr response →
         status_code response ≠ 200%Z →
         result = None)
    ∧ (∀ e,
         http_get env (bars_request symbol timeframe limit) (length (gets w))
           = inl e →
         result = None).
Proof.
  destruct (get_bars_run symbol timeframe limit w)
    as (w' & result & Hrun & Hgets & Hposts & Hresult).
  exists w', result. split_and!; try done.
  - intros response data Hget Hstatus Hjson.
    rewrite Hget, Hstatus, Hjson in Hresult. simpl in Hresult.
    split; [intros bars Hbars | intros Hbars];
      by rewrite Hbars in Hresult.
  - intros response e Hget Hstatus Hjson.
    by rewrite Hget, Hstatus, Hjson in Hresult.
  - intros response Hget Hstatus. rewrite Hget in Hresult.
    apply Z.eqb_neq in Hstatus. by rewrite Hstatus in Hresult.
  - intros e Hget. by rewrite Hget in Hresult.
Qed.

Lemma status_200_or_201 (status : Z) :
  status ∈ [200%Z; 201%Z] ↔ status = 200%Z ∨ status = 201%Z.
Proof. rewrite !elem_of_cons, elem_of_nil. tauto. Qed.

(** What [submit_signals] does, by cases on the answer to its one
    request. *)
Lemma submit_signals_run (indicator_id symbol : string)
    (timeframe : Z) (indicator_name : string) (points : list Point.t)
    (lines : option (list Line.t))
    (metadata : option (list (string * MetaValue))) (w : World) :
  let req := submit_request indicator_id symbol timeframe indicator_name
               points lines metadata in
  ∃ w' result,
    submit_signals env indicator_id symbol timeframe indicator_name
      points lines metadata w = (w', Returns result)
    ∧ gets w' = gets w
    ∧ posts w' = posts w ++ [req]
    ∧ result =
        match http_post env req (length (posts w)) with
        | inl _ => false
        | inr response =>
            if bool_decide (status_code response ∈ [200%Z; 201%Z]) then
              match json response with
              | JsonObject _ => true
              | Undecodable _ => false
              end
            else false
        end.
Proof.
  intros req. unfold submit_signals, try_except. rewrite bind_run.
  unfold requests_post. simpl. fold req.
  change (mkPostRequest _ _ _ _) with req.
  destruct (http_post env req _) as [e|response]; simpl.
  { eexists _, _. split_and!; reflexivity. }
  destruct (bool_decide _).
  - rewrite bind_run. unfold response_json.
    destruct (json response) as [e|data]; simpl;
      eexists _, _; split_and!; reflexivity.
  - eexists _, _. split_and!; reflexivity.
Qed.

(** C7, as the code has it: [submit_signals] sends exactly one request and
    always returns a boolean.  It returns [True] exactly when the request
    is answered with status 200 or 201 and a body that decodes to a JSON
    object; every other status, every transport failure and every
    200/201 answer with another body gives [False]. *)
Theorem submit_signals_outcome (indicator_id symbol : string)
    (timeframe : Z) (indicator_name : string) (points : list Point.t)
    (lines : option (list Line.t))
    (metadata : option (list (string * MetaValue))) (w : World) :
  ∃ w' result,
    submit_signals env indicator_id symbol timeframe indicator_name
      points lines metadata w = (w', Returns result)
    ∧ gets w' = gets w
    ∧ posts w'
      = posts w ++ [submit_request indicator_id symbol timeframe
                      indicator_name points lines metadata]
    ∧ (result = true ↔
       ∃ response data,
         http_post env
           (submit_request indicator_id symbol timeframe indicator_name
              points lines metadata) (length (posts w)) = inr response
         ∧ (status_code response = 200%Z ∨ status_code response = 201%Z)
         ∧ json response = JsonObject data).
Proof.
  destruct (submit_signals_run indicator_id symbol timeframe
              indicator_name points lines metadata w)
    as (w' & result & Hrun & Hgets & Hposts & Hresult).
  exists w', result. split_and!; try done.
  destruct (http_post env _ _) as [e|response].
  { subst result. split; [done|]. by intros (? & ? & ? & _). }
  destruct (bool_decide_reflect (status_code response ∈ [200%Z; 201%Z]))
    as [Hstatus|Hstatus]; rewrite status_200_or_201 in Hstatus.
  - destruct (json response) as [e|data] eqn:Hjson; subst result.
    + split; [done|]. intros (? & ? & ? & _ & ?). congruence.
    + split; [|done]. intros _. by exists response, data.
  - subst result. split; [done|].
    intros (? & ? & ? & ? & _). by simplify_eq.
Qed.

(** The banner always prints and returns; it sends nothing. *)
Lemma run_once_banner_run (w : World) :
  ∃ wb, run_once_banner env w = (wb, Returns ())
        ∧ gets wb = gets w ∧ posts wb = posts w.
Proof. eexists. split_and!; reflexivity. Qed.

(** The fetch of [run_once] sends no submission, and a run whose fetch
    returned goes on from the result of the fetch. *)
Lemma run_once_fetch_run (w w1 : World)
    (bars : option (list Bar.t)) :
  run_once_fetch env w = (w1, Returns bars) →
  ∃ wb, run_once_banner env w = (wb, Returns ())
        ∧ get_bars env SYMBOL TIMEFRAME 500 wb = (w1, Returns bars)
        ∧ posts w1 = posts w.
Proof.
  intros Hfetch.
  destruct (run_once_banner_run w) as (wb & Hbanner & _ & Hpb).
  unfold run_once_fetch in Hfetch. rewrite bind_run, Hbanner in Hfetch.
  destruct (get_bars_run SYMBOL TIMEFRAME 500 wb)
    as (w1' & bars' & Hbars & _ & Hp1 & _).
  exists wb. split_and!; [done..|].
  rewrite Hfetch in Hbars. simplify_eq. congruence.
Qed.

(** C8: when the bar fetch of a single-shot run yields [None] or the
    empty list, [run_once] returns [False] and no submission is sent. *)
Theorem run_once_fails_without_bars (w w1 : World)
    (bars : option (list Bar.t)) :
  run_once_fetch env w = (w1, Returns bars) →
  bars = None ∨ bars = Some [] →
  ∃ w', run_once env w = (w', Returns false) ∧ posts w' = posts w.
Proof.
  intros Hfetch Hempty.
  destruct (run_once_fetch_run w w1 bars Hfetch)
    as (wb & Hbanner & Hbars & Hposts).
  unfold run_once. rewrite bind_run, Hbanner, bind_run, Hbars.
  assert (truthy bars = false) as -> by by destruct Hempty as [-> | ->].
  eexists. split; [reflexivity|]. done.
Qed.

(** C9: when the bar fetch of a single-shot run yields a non-empty list
    on which [generate_signals] returns no point and no line, [run_once]
    returns [True] and no submission is sent. *)
Theorem run_once_succeeds_without_signals (w w1 : World)
    (bars : list Bar.t) :
  run_once_fetch env w = (w1, Returns (Some bars)) →
  bars ≠ [] →
  generate_signals bars = Some ([], []) →
  ∃ w', run_once env w = (w', Returns true) ∧ posts w' = posts w.
Proof.
  intros Hfetch Hne Hgen.
  destruct (run_once_fetch_run w w1 (Some bars) Hfetch)
    as (wb & Hbanner & Hbars & Hposts).
  unfold run_once. rewrite bind_run, Hbanner, bind_run, Hbars.
  destruct bars as [|bar bars]; [done|]. simpl.
  rewrite !bind_run. simpl.
  unfold call_generate_signals. rewrite Hgen. simpl.
  eexists. split; [reflexivity|]. done.
Qed.

End SingleShot.

(** ** Concrete runs *)

(** C6 as stated fails on a status 200 whose body is not JSON: the
    decoding error is caught and [None] is returned, not a list. *)
Lemma get_bars_status_200_returns_none :
  http_get (env_serving (inr html_bars_response))
    (bars_request SYMBOL TIMEFRAME 500) 0 = inr html_bars_response
  ∧ status_code html_bars_response = 200%Z
  ∧ (get_bars (env_serving (inr html_bars_response)) SYMBOL TIMEFRAME 500
       empty_world).2 = Returns None.
Proof. split_and!; reflexivity. Qed.

(** C7 as stated fails on a status 201 whose body is empty: decoding it
    raises inside the [try], and the function returns [False]. *)
Lemma submit_signals_status_201_returns_false :
  http_post (env_answering (inr created_empty_body))
    (submit_request INDICATOR_ID SYMBOL TIMEFRAME INDICATOR_NAME
       [] None None) 0 = inr created_empty_body
  ∧ status_code created_empty_body = 201%Z
  ∧ (submit_signals (env_answering (inr created_empty_body))
       INDICATOR_ID SYMBOL TIMEFRAME INDICATOR_NAME [] None None
       empty_world).2 = Returns false.
Proof. split_and!; reflexivity. Qed.

(** A run whose fetch yields the empty list. *)
Lemma run_once_fails_without_bars_witness :
  ∃ w', run_once
          (env_serving (inr (mkResponse 200 ""
                               (JsonObject (mkBarsObject (Some [])))))) 
          empty_world = (w', Returns false)
        ∧ posts w' = posts empty_world.
Proof.
  eapply (run_once_fails_without_bars _ empty_world _ (Some []));
    [reflexivity | right; reflexivity].
Defined.

(** A run on three bars none of which is inside its predecessor. *)
Lemma run_once_succeeds_without_signals_witness :
  ∃ w', run_once
          (env_serving (inr (mkResponse 200 ""
                               (JsonObject
                                  (mkBarsObject (Some trending_bars))))))
          empty_world = (w', Returns true)
        ∧ posts w' = posts empty_world.
Proof.
  eapply (run_once_succeeds_without_signals _ empty_world _ trending_bars);
    [reflexivity | discriminate | reflexivity].
Defined.

(** The direction examples of the specification: with the previous bar
    between 1.1030 and 1.1050, a close at 1.1045 is bullish and a close at
    1.1035 is bearish. *)
Example direction_examples :
  is_bullish (Bar.mk 0 1.1040 1.1050 1.1030 1.1040 0)
             (Bar.mk 0 1.1040 1.1048 1.1032 1.1045 0) = true
  ∧ is_bullish (Bar.mk 0 1.1040 1.1050 1.1030 1.1040 0)
               (Bar.mk 0 1.1040 1.1048 1.1032 1.1035 0) = false.
Proof. split; reflexivity. Qed.

(** The sample bars give a buy batch at index 2 and a sell batch at
    index 3, numbered 0 and 1. *)
Example sample_bars_signals :
  ∃ pts lns,
    generate_signals sample_bars = Some (pts, lns)
    ∧ Point.label <$> pts = ["BUY"; "SELL"]%string
    ∧ Point.time <$> pts = [10800; 14400]%Z
    ∧ Line.id <$> lns = batch_ids 0 ++ batch_ids 1
    ∧ Line.label <$> take 5 lns
      = [ "Entry: 1.10450"; "SL: 1.10250"; "TP1: 1.10650";
          "TP2: 1.10850"; "TP3: 1.11050" ]%string.
Proof. do 2 eexists. split; [reflexivity|]. split_and!; reflexivity. Qed.

(** A transport failure on the fetch: one console line more, [False],
    one request sent to the bars endpoint and none to the indicators
    endpoint. *)
Example run_once_on_transport_failure :
  let env := env_serving (inl (mkExn RequestException "timed out")) in
  (run_once env empty_world).2 = Returns false
  ∧ length (gets (run_once env empty_world).1) = 1
  ∧ posts (run_once env empty_world).1 = []
  ∧ last (console (run_once env empty_world).1)
    = Some "   ERROR: No se pudieron obtener los datos"%string.
Proof. split_and!; reflexivity. Qed.

(** A full run on the sample bars: the two batches are submitted in one
    request and the run reports success. *)
Example run_once_submits_sample_signals :
  let env := env_answering
               (inr (mkResponse 200 ""
                       (JsonObject (mkSubmitObject (Some 2%Z) (Some 10%Z)
                                      None)))) in
  (run_once env empty_world).2 = Returns true
  ∧ (length ∘ payload_points ∘ post_json <$> posts (run_once env empty_world).1)
    = [2]
  ∧ (length ∘ payload_lines ∘ post_json <$> posts (run_once env empty_world).1)
    = [10].
Proof. split_and!; reflexivity. Qed.

(** * Further properties *)

(** ** [generate_signals] as a function of the examined pairs *)

Lemma length_examined_pairs (bars : list Bar.t) :
  length (examined_pairs bars) = length bars - 2.
Proof.
  unfold examined_pairs. rewrite length_zip, !length_drop. lia.
Qed.

Lemma examined_pairs_lookup (bars : list Bar.t) (m : nat)
    (prev curr : Bar.t) :
  bars !! S m = Some prev →
  bars !! S (S m) = Some curr →
  examined_pairs bars !! m = Some (prev, curr).
Proof.
  intros Hprev Hcurr. unfold examined_pairs.
  apply lookup_zip_Some. by rewrite !lookup_drop.
Qed.

Lemma signals_of_snoc_inside (pairs : list (Bar.t * Bar.t))
    (prev curr : Bar.t) :
  signals_of (pairs ++ [(prev, curr)]) =
  {| points := points (signals_of pairs)
       ++ [(signal_batch (signal_count (signals_of pairs)) prev curr).1];
     lines := lines (signals_of pairs)
       ++ (signal_batch (signal_count (signals_of pairs)) prev curr).2;
     signal_count := S (signal_count (signals_of pairs)) |}.
Proof.
  unfold signals_of. simpl.
  rewrite !imap_app, concat_app, length_app. simpl.
  rewrite Nat.add_0_r, app_nil_r. f_equal. lia.
Qed.

(** The loop state after [n] examined pairs. *)
Lemma loop_upto_signals_of (bars : list Bar.t) (n : nat) :
  n ≤ length bars - 2 →
  loop_upto bars (2 + n)
  = Some (signals_of
            (filter (λ pair, is_inside_bar pair.1 pair.2 = true)
               (take n (examined_pairs bars)))).
Proof.
  induction n as [|n IH]; intros Hn; [done|].
  replace (2 + S n) with (S (2 + n)) by lia.
  rewrite loop_upto_S, IH by lia. simpl.
  destruct (lookup_lt_is_Some_2 bars (S n)) as [prev Hprev]; [lia|].
  destruct (lookup_lt_is_Some_2 bars (S (S n))) as [curr Hcurr]; [lia|].
  rewrite (loop_body_spec bars _ (S (S n)) prev curr);
    [|by rewrite <- Hprev; f_equal; lia | done].
  rewrite (take_S_r _ _ _ (examined_pairs_lookup _ _ _ _ Hprev Hcurr)).
  rewrite filter_app. f_equal.
  destruct (is_inside_bar prev curr) eqn:Hin.
  - rewrite filter_cons_True, filter_nil by done.
    by rewrite signals_of_snoc_inside.
  - rewrite filter_cons_False, filter_nil by (simpl; congruence).
    by rewrite app_nil_r.
Qed.

Lemma generate_signals_signals_of (bars : list Bar.t) :
  generate_signals bars
  = Some (points (signals_of (inside_pairs bars)),
          lines (signals_of (inside_pairs bars))).
Proof.
  unfold generate_signals.
  destruct (decide (2 ≤ length bars)) as [Hlen|Hlen].
  - replace (length bars) with (2 + (length bars - 2)) at 1 by lia.
    rewrite loop_upto_signals_of by done.
    rewrite take_ge by (rewrite length_examined_pairs; lia). done.
  - rewrite loop_upto_small by lia.
    assert (examined_pairs bars = []) as Hnil.
    { apply nil_length_inv. rewrite length_examined_pairs. lia. }
    unfold inside_pairs. by rewrite Hnil.
Qed.

(** X1: [generate_signals] is a comprehension over the pairs
    [(bars[i-1], bars[i])], [i ≥ 2]: it keeps those whose second bar is
    inside the first and turns the [k]-th kept pair into batch [k]; the
    points are the markers of these batches and the lines their lines,
    concatenated in the same order. *)
Theorem generate_signals_closed_form (bars : list Bar.t) :
  generate_signals bars
  = Some (imap (λ k pair, (signal_batch k pair.1 pair.2).1)
            (inside_pairs bars),
          concat (imap (λ k pair, (signal_batch k pair.1 pair.2).2)
                    (inside_pairs bars))).
Proof. apply generate_signals_signals_of. Qed.

(** X2: fewer than three bars never give a signal: on the empty list, on
    one bar and on two bars [generate_signals] returns two empty lists. *)
Theorem generate_signals_needs_three_bars (bars : list Bar.t) :
  length bars ≤ 2 → generate_signals bars = Some ([], []).
Proof.
  intros Hlen. unfold generate_signals. by rewrite loop_upto_small.
Qed.

(** Two bars, the second inside the first: no signal. *)
Lemma generate_signals_needs_three_bars_witness :
  generate_signals two_bars = Some ([], []).
Proof. apply (generate_signals_needs_three_bars two_bars). simpl. lia. Defined.

Lemma signal_batch_time (k : nat) (prev curr : Bar.t) :
  Point.time (signal_batch k prev curr).1 = Bar.time curr.
Proof. unfold signal_batch. by destruct (is_bullish prev curr). Qed.

(** X3: the points follow the bars: there are at most [len(bars) - 2] of
    them, and their times are, in order, times of bars at index 2 or
    later, each bar giving at most one point. *)
Theorem generate_signals_points_follow_bars (bars : list Bar.t) :
  ∃ pts lns,
    generate_signals bars = Some (pts, lns)
    ∧ length pts ≤ length bars - 2
    ∧ Point.time <$> pts `sublist_of` Bar.time <$> drop 2 bars.
Proof.
  do 2 eexists. split; [apply generate_signals_signals_of|]. simpl.
  assert (inside_pairs bars `sublist_of` examined_pairs bars) as Hsub
    by apply sublist_filter.
  split.
  - rewrite length_imap, <- length_examined_pairs.
    by apply sublist_length.
  - assert (Point.time <$> imap (λ k pair, (signal_batch k pair.1 pair.2).1)
                             (inside_pairs bars)
            = Bar.time <$> (inside_pairs bars).*2) as ->.
    { apply list_eq. intros i.
      rewrite !list_lookup_fmap, list_lookup_imap.
      destruct (inside_pairs bars !! i) as [[prev curr]|]; simpl; [|done].
      by rewrite signal_batch_time. }
    apply fmap_sublist.
    replace (drop 2 bars) with (examined_pairs bars).*2.
    + by apply fmap_sublist.
    + unfold examined_pairs. apply snd_zip. rewrite !length_drop. lia.
Qed.

(** ** New bars never change old signals *)

Lemma loop_body_app (bars more : list Bar.t) (st : LoopState) (i : nat) :
  i < length bars →
  loop_body (bars ++ more) st i = loop_body bars st i.
Proof.
  intros Hi. unfold loop_body.
  by rewrite !lookup_app_l by lia.
Qed.

Lemma for_each_app_bars (bars more : list Bar.t) (indices : list nat)
    (st : LoopState) :
  Forall (λ i, i < length bars) indices →
  for_each (loop_body (bars ++ more)) indices st
  = for_each (loop_body bars) indices st.
Proof.
  intros Hall. revert st.
  induction Hall as [|i indices Hi _ IH]; intros st; simpl; [done|].
  rewrite loop_body_app by done.
  destruct (loop_body bars st i); [apply IH | done].
Qed.

Lemma range2_lt (n : nat) : Forall (λ i, i < n) (range2 n).
Proof.
  apply Forall_forall. intros i Hi. unfold range2 in Hi.
  apply elem_of_seq in Hi. lia.
Qed.

(** X4: signals are never revised.  When more bars are appended to a
    sequence, the points and lines of the longer sequence start with
    exactly the points and lines of the shorter one, ids included. *)
Theorem generate_signals_append (bars more : list Bar.t) :
  ∃ pts lns pts' lns',
    generate_signals bars = Some (pts, lns)
    ∧ generate_signals (bars ++ more) = Some (pts', lns')
    ∧ pts `prefix_of` pts'
    ∧ lns `prefix_of` lns'.
Proof.
  destruct (generate_signals_loop bars) as (st & Hst & Hgen).
  destruct (generate_signals_loop (bars ++ more)) as (st' & Hst' & Hgen').
  exists (points st), (lines st), (points st'), (lines st').
  split_and!; [done..| |].
  all: eapply (loop_upto_mono (bars ++ more) (length bars)
                 (length (bars ++ more)) st st');
    [rewrite length_app; lia | done | | done].
  all: unfold loop_upto;
    by rewrite for_each_app_bars by apply range2_lt.
Qed.

(** ** What the HTTP calls log *)

Ltac run_steps :=
  cbn -[submit_signals str_nat count_label repeat_char
        call_generate_signals];
  repeat (rewrite bind_run;
          cbn -[submit_signals str_nat count_label repeat_char
                call_generate_signals]).

Section Runs.
Context (env : Env).

(** X6: what [get_bars] prints.  A status 200 whose body decodes to a
    JSON object prints nothing; a non-200 answer prints the status code
    and then the body; a transport failure prints the text of the
    exception, and so does a status 200 whose body cannot be decoded,
    under the same heading.  It never reads the clock. *)
Theorem get_bars_console (symbol : string) (timeframe limit : Z)
    (w : World) :
  ∃ w' result,
    get_bars env symbol timeframe limit w = (w', Returns result)
    ∧ clock_reads w' = clock_reads w
    ∧ (∀ response data,
         http_get env (bars_request symbol timeframe limit) (length (gets w))
           = inr response →
         status_code response = 200%Z →
         json response = JsonObject data →
         console w' = console w)
    ∧ (∀ response,
         http_get env (bars_request symbol timeframe limit) (length (gets w))
           = inr response →
         status_code response ≠ 200%Z →
         console w'
         = console w
             ++ [("Error obteniendo barras: "
                  ++ str_Z (status_code response))%string;
                 text response])
    ∧ (∀ e,
         http_get env (bars_request symbol timeframe limit) (length (gets w))
           = inl e →
         console w'
         = console w ++ [("Error de conexion: " ++ exn_str e)%string])
    ∧ (∀ response e,
         http_get env (bars_request symbol timeframe limit) (length (gets w))
           = inr response →
         status_code response = 200%Z →
         json response = Undecodable e →
         console w'
         = console w ++ [("Error de conexion: " ++ exn_str e)%string]).
Proof.
  unfold get_bars, try_except. rewrite bind_run.
  unfold requests_get. simpl. fold (bars_request symbol timeframe limit).
  change (mkGetRequest _ _ _ _ _ _)
    with (bars_request symbol timeframe limit).
  destruct (http_get env _ _) as [e|response]; simpl.
  { eexists _, _. split; [reflexivity|]. simpl.
    split_and!; try done. by intros ? [= ->]. }
  destruct (status_code response =? 200)%Z eqn:Hstatus.
  - apply Z.eqb_eq in Hstatus. rewrite bind_run. unfold response_json.
    destruct (json response) as [e|data] eqn:Hjson; simpl;
      eexists _, _; (split; [reflexivity|]); simpl; split_and!;
      try (intros; simplify_eq; first [done | congruence]).
  - apply Z.eqb_neq in Hstatus.
    eexists _, _. split; [reflexivity|]. simpl. split_and!;
      try (intros; simplify_eq;
           first [done | congruence | by rewrite <- app_assoc]).
Qed.

(** X7: the acknowledgement may lack any of its keys.  On status 200 or
    201 with a JSON object, [submit_signals] returns [True] and prints two
    lines, a missing count reading 0 and a missing expiry reading
    [None]; on any other status it prints the status code and the body
    and returns [False]. *)
Theorem submit_signals_console (indicator_id symbol : string)
    (timeframe : Z) (indicator_name : string) (points : list Point.t)
    (lines : option (list Line.t))
    (metadata : option (list (string * MetaValue))) (w : World) :
  ∃ w' result,
    submit_signals env indicator_id symbol timeframe indicator_name
      points lines metadata w = (w', Returns result)
    ∧ clock_reads w' = clock_reads w
    ∧ (∀ response data,
         http_post env
           (submit_request indicator_id symbol timeframe indicator_name
              points lines metadata) (length (posts w)) = inr response →
         status_code response = 200%Z ∨ status_code response = 201%Z →
         json response = JsonObject data →
         result = true
         ∧ console w'
           = console w
               ++ [("Señales enviadas: "
                    ++ str_Z (default 0%Z (points_received data))
                    ++ " puntos, "
                    ++ str_Z (default 0%Z (lines_received data))
                    ++ " lineas")%string;
                   ("Expira: " ++ default "None" (expires_at data))%string])
    ∧ (∀ response,
         http_post env
           (submit_request indicator_id symbol timeframe indicator_name
              points lines metadata) (length (posts w)) = inr response →
         ¬ (status_code response = 200%Z ∨ status_code response = 201%Z) →
         result = false
         ∧ console w'
           = console w
               ++ [("Error enviando señales: "
                    ++ str_Z (status_code response))%string;
                   text response]).
Proof.
  unfold submit_signals, try_except. rewrite bind_run.
  unfold requests_post. simpl.
  fold (submit_request indicator_id symbol timeframe indicator_name
          points lines metadata).
  change (mkPostRequest _ _ _ _)
    with (submit_request indicator_id symbol timeframe indicator_name
            points lines metadata).
  destruct (http_post env _ _) as [e|response]; simpl.
  { eexists _, _. split; [reflexivity|]. simpl. split_and!; done. }
  destruct (bool_decide_reflect (status_code response ∈ [200%Z; 201%Z]))
    as [Hstatus|Hstatus]; rewrite status_200_or_201 in Hstatus.
  - rewrite bind_run. unfold response_json.
    destruct (json response) as [e|data] eqn:Hjson; simpl;
      eexists _, _; (split; [reflexivity|]); simpl; split_and!; try done.
    + intros ? ? [= <-] _ Hjson'. congruence.
    + intros ? [= <-] Hno. done.
    + intros ? data' [= <-] _ Hjson'.
      assert (data' = data) as -> by congruence.
      split; [done|]. by rewrite <- app_assoc.
    + intros ? [= <-] Hno. done.
  - eexists _, _. split; [reflexivity|]. simpl. split_and!; try done.
    + intros ? ? [= <-] Hyes. done.
    + intros ? [= <-] _. split; [done|]. by rewrite <- app_assoc.
Qed.

(** ** The single-shot run, all paths *)

(** The run on a fetch that gave signals. *)
Lemma run_once_with_signals (w w1 : World) (bars : list Bar.t)
    (pts : list Point.t) (lns : list Line.t) :
  run_once_fetch env w = (w1, Returns (Some bars)) →
  generate_signals bars = Some (pts, lns) →
  pts ≠ [] →
  ∃ w' result,
    run_once env w = (w', Returns result)
    ∧ gets w' = gets w1
    ∧ posts w'
      = posts w ++ [run_once_request (utcnow_isoformat env (clock_reads w1))
                      pts lns]
    ∧ result =
        match http_post env
                (run_once_request (utcnow_isoformat env (clock_reads w1))
                   pts lns) (length (posts w)) with
        | inl _ => false
        | inr response =>
            if bool_decide (status_code response ∈ [200%Z; 201%Z]) then
              match json response with
              | JsonObject _ => true
              | Undecodable _ => false
              end
            else false
        end.
Proof.
  intros Hfetch Hgen Hpts.
  destruct (run_once_fetch_run env w w1 (Some bars) Hfetch)
    as (wb & Hbanner & Hbars & Hposts).
  unfold run_once. rewrite bind_run, Hbanner, bind_run, Hbars.
  destruct bars as [|bar bars]; [cbv in Hgen; by simplify_eq|].
  destruct pts as [|p pts]; [done|].
  run_steps. unfold call_generate_signals. rewrite Hgen. run_steps.
  match goal with
  | |- context [submit_signals env ?a ?b ?c ?d ?e ?f ?g ?w0] =>
      destruct (submit_signals_run env a b c d e f g w0)
        as (w2 & result & Hrun & Hg2 & Hp2 & Hresult)
  end.
  rewrite Hrun. simpl in Hg2, Hp2, Hresult. rewrite Hposts in Hp2, Hresult.
  destruct result; run_steps; eexists _, _;
    (split; [reflexivity|]); simpl; split_and!; done.
Qed.

(** On the answers of the typed server, every run returns, after one
    request for bars and at most one submission. *)
Lemma run_once_total (w : World) :
  ∃ w' result,
    run_once env w = (w', Returns result)
    ∧ gets w' = gets w ++ [bars_request SYMBOL TIMEFRAME 500]
    ∧ (posts w' = posts w ∨ ∃ req, posts w' = posts w ++ [req]).
Proof.
  destruct (run_once_banner_run env w) as (wb & Hbanner & Hgb & Hpb).
  destruct (get_bars_run env SYMBOL TIMEFRAME 500 wb)
    as (w1 & fetched & Hbars & Hg1 & Hp1 & _).
  rewrite Hgb in Hg1. rewrite Hpb in Hp1.
  assert (run_once_fetch env w = (w1, Returns fetched)) as Hfetch.
  { unfold run_once_fetch. by rewrite bind_run, Hbanner. }
  destruct fetched as [[|bar bars]|].
  - unfold run_once. rewrite bind_run, Hbanner, bind_run, Hbars. run_steps.
    eexists _, _. split; [reflexivity|]. simpl. eauto.
  - destruct (generate_signals_inv (bar :: bars))
      as (st & Hgen & _ & [Hlen _] & _).
    destruct (points st) as [|p pts] eqn:Hpts.
    + assert (lines st = []) as Hlines by by apply nil_length_inv.
      rewrite Hlines in Hgen.
      unfold run_once. rewrite bind_run, Hbanner, bind_run, Hbars.
      run_steps. unfold call_generate_signals. rewrite Hgen. run_steps.
      eexists _, _. split; [reflexivity|]. simpl. eauto.
    + destruct (run_once_with_signals w w1 (bar :: bars) (p :: pts)
                  (lines st) Hfetch Hgen)
        as (w' & result & Hrun & Hg & Hp & _); [done|].
      exists w', result. split_and!; [done | congruence | eauto].
  - unfold run_once. rewrite bind_run, Hbanner, bind_run, Hbars. run_steps.
    eexists _, _. split; [reflexivity|]. simpl. eauto.
Qed.

(** X8: a single-shot run asks for the bars once and submits at most
    once: whatever the server answers, exactly one request goes to the
    bars endpoint, for [SYMBOL], [TIMEFRAME] and 500 bars, with no retry,
    and at most one request goes to the indicators endpoint. *)
Theorem run_once_sends_one_fetch (w : World) :
  gets (run_once env w).1 = gets w ++ [bars_request SYMBOL TIMEFRAME 500]
  ∧ (posts (run_once env w).1 = posts w
     ∨ ∃ req, posts (run_once env w).1 = posts w ++ [req]).
Proof.
  destruct (run_once_total w) as (w' & result & -> & Hgets & Hposts).
  by split.
Qed.

(** X9: when the fetched bars give at least one signal, [run_once] sends
    exactly one submission, which carries all the generated points and
    lines and the run's metadata under the configured indicator, and it
    returns [True] exactly when that submission is answered with status
    200 or 201 and a JSON object. *)
Theorem run_once_submits_signals (w w1 : World) (bars : list Bar.t)
    (pts : list Point.t) (lns : list Line.t) :
  run_once_fetch env w = (w1, Returns (Some bars)) →
  generate_signals bars = Some (pts, lns) →
  pts ≠ [] →
  ∃ w' result generated_at,
    run_once env w = (w', Returns result)
    ∧ posts w' = posts w ++ [run_once_request generated_at pts lns]
    ∧ payload_points (post_json (run_once_request generated_at pts lns))
      = pts
    ∧ payload_lines (post_json (run_once_request generated_at pts lns))
      = lns
    ∧ (result = true ↔
       ∃ response data,
         http_post env (run_once_request generated_at pts lns)
           (length (posts w)) = inr response
         ∧ (status_code response = 200%Z ∨ status_code response = 201%Z)
         ∧ json response = JsonObject data).
Proof.
  intros Hfetch Hgen Hpts.
  destruct (run_once_with_signals w w1 bars pts lns Hfetch Hgen Hpts)
    as (w' & result & Hrun & _ & Hposts & Hresult).
  exists w', result, (utcnow_isoformat env (clock_reads w1)).
  split_and!; try done.
  destruct (http_post env _ _) as [e|response].
  { subst result. split; [done|]. by intros (? & ? & ? & _). }
  destruct (bool_decide_reflect (status_code response ∈ [200%Z; 201%Z]))
    as [Hstatus|Hstatus]; rewrite status_200_or_201 in Hstatus.
  - destruct (json response) as [e|data] eqn:Hjson; subst result.
    + split; [done|]. intros (? & ? & ? & _ & ?). congruence.
    + split; [|done]. intros _. by exists response, data.
  - subst result. split; [done|].
    intros (? & ? & ? & ? & _). by simplify_eq.
Qed.

End Runs.

(** The sample bars are fetched and give two signals, which are sent. *)
Lemma run_once_submits_signals_witness :
  ∃ w' result generated_at pts lns,
    generate_signals sample_bars = Some (pts, lns)
    ∧ run_once (env_answering (inr created_empty_body)) empty_world
      = (w', Returns result)
    ∧ posts w' = [run_once_request generated_at pts lns].
Proof.
  edestruct (run_once_submits_signals
               (env_answering (inr created_empty_body)) empty_world
               (run_once_fetch (env_answering (inr created_empty_body))
                  empty_world).1
               sample_bars)
    as (w' & result & generated_at & Hrun & Hposts & _);
    [reflexivity | reflexivity | discriminate |].
  exists w', result, generated_at. do 2 eexists.
  split; [reflexivity|]. split; [exact Hrun | exact Hposts].
Defined.

(** ** The counts in the metadata *)

Lemma signal_batch_label (k : nat) (prev curr : Bar.t) :
  Point.label (signal_batch k prev curr).1 = "BUY"%string
  ∨ Point.label (signal_batch k prev curr).1 = "SELL"%string.
Proof. unfold signal_batch. destruct (is_bullish prev curr); eauto. Qed.

Lemma count_labels_add_up (pts : list Point.t) :
  Forall (λ p, Point.label p = "BUY"%string
               ∨ Point.label p = "SELL"%string) pts →
  count_label "BUY" pts + count_label "SELL" pts = length pts.
Proof.
  unfold count_label. induction 1 as [|p pts [Hp|Hp] _ IH]; [done|..].
  - rewrite filter_cons_True, filter_cons_False by (by rewrite ?Hp).
    simpl. lia.
  - rewrite filter_cons_False, filter_cons_True by (by rewrite ?Hp).
    simpl. lia.
Qed.

(** X10: the counts [run_once] reports add up: for the points and lines of
    any bar sequence, the metadata has
    [buy_count + sell_count = total_points] and
    [total_lines = 5 * total_points]; every point is labelled either BUY
    or SELL. *)
Theorem run_once_metadata_counts (bars : list Bar.t)
    (generated_at : string) :
  ∃ pts lns buys sells,
    generate_signals bars = Some (pts, lns)
    ∧ Forall (λ p, Point.label p = "BUY"%string
                   ∨ Point.label p = "SELL"%string) pts
    ∧ length pts = buys + sells
    ∧ run_once_metadata generated_at pts lns
      = [ ("generated_at", MetaStr generated_at);
          ("total_points", MetaInt (Z.of_nat (buys + sells)));
          ("total_lines", MetaInt (Z.of_nat (5 * (buys + sells))));
          ("buy_count", MetaInt (Z.of_nat buys));
          ("sell_count", MetaInt (Z.of_nat sells));
          ("strategy", MetaStr "Inside Bar with Multi-TP + Lines") ]%string.
Proof.
  destruct (generate_signals_inv bars) as (st & Hgen & _ & [Hlen _] & _).
  assert (Forall (λ p, Point.label p = "BUY"%string
                       ∨ Point.label p = "SELL"%string) (points st))
    as Hlabels.
  { rewrite generate_signals_signals_of in Hgen.
    injection Hgen as <- _.
    apply Forall_forall. intros p Hp.
    apply elem_of_lookup_imap_1 in Hp as (k & [prev curr] & -> & _).
    apply signal_batch_label. }
  exists (points st), (lines st), (count_label "BUY" (points st)),
    (count_label "SELL" (points st)).
  pose proof (count_labels_add_up _ Hlabels) as Hsum.
  split_and!; [done | done | lia |].
  unfold run_once_metadata. by rewrite Hlen, Hsum.
Qed.

(** ** The continuous mode *)

Section Continuous.
Context (run : M bool) (platform : Platform) (operator : Operator).
Context (interval_seconds : Z).







End Continuous.




(** Ten thousand million seconds: [OverflowError] after one run; and an
    interrupt in the handler's sleep after a run that raised. *)
Example run_continuous_other_ends :
  (∃ s', run_continuous 1 (run_once env_unreachable) cpython_64
           never_interrupts 10000000000 empty_world
         = Some (s', UncaughtOverflowError))
  ∧ (∃ s', run_continuous 1 (raising_run not_json) cpython_64
             (interrupts_at 0) 300 empty_world
           = Some (s', UncaughtKeyboardInterrupt)).
Proof. split; eexists; reflexivity. Qed.

(** ** The lines of a batch and its marker *)

Lemma lines_of_batch_concat (g : nat → Bar.t * Bar.t → list Line.t)
    (pairs : list (Bar.t * Bar.t)) (k : nat) (pair : Bar.t * Bar.t) :
  (∀ j x, length (g j x) = 5) →
  pairs !! k = Some pair →
  lines_of_batch k (concat (imap g pairs)) = g k pair.
Proof.
  intros Hfive. revert g Hfive k.
  induction pairs as [|x pairs IH]; intros g Hfive [|k] Hk; simplify_eq/=.
  - unfold lines_of_batch. change (5 * 0) with 0. rewrite drop_0.
    by apply take_app_length'.
  - unfold lines_of_batch.
    replace (5 * S k) with (length (g 0 x) + 5 * k) by (rewrite Hfive; lia).
    rewrite drop_app_add.
    exact (IH (g ∘ S) (λ j y, Hfive (S j) y) k Hk).
Qed.

Lemma signal_batch_five (k : nat) (pair : Bar.t * Bar.t) :
  length (signal_batch k pair.1 pair.2).2 = 5.
Proof. unfold signal_batch. by destruct (is_bullish pair.1 pair.2). Qed.

(** X14: in every batch the entry line sits on the marker and the lines
    are styled by role.  For the [k]-th point, the lines at positions
    [5k .. 5k+4] are: an entry line at the point's price in the point's
    colour, dashed, width 1; a stop-loss line, solid red, width 2; three
    take-profit lines, dotted, width 1, in three greens; and every line is
    labelled with its role and its own price to five decimals. *)
Theorem generate_signals_batch_styling (bars : list Bar.t) :
  ∃ pts lns,
    generate_signals bars = Some (pts, lns)
    ∧ ∀ k p, pts !! k = Some p →
        ∃ entry sl tp1 tp2 tp3,
          lines_of_batch k lns = [entry; sl; tp1; tp2; tp3]
          ∧ Line.price entry = Point.price p
          ∧ Line.color entry = Point.color p
          ∧ (Line.style <$> [entry; sl; tp1; tp2; tp3])
            = ["dashed"; "solid"; "dotted"; "dotted"; "dotted"]%string
          ∧ (Line.width <$> [entry; sl; tp1; tp2; tp3])
            = [1; 2; 1; 1; 1]%Z
          ∧ (Line.color <$> [sl; tp1; tp2; tp3])
            = ["#ef4444"; "#22c55e"; "#10b981"; "#059669"]%string
          ∧ (Line.label <$> [entry; sl; tp1; tp2; tp3])
            = [ "Entry: " ++ format_5f (Line.price entry);
                "SL: " ++ format_5f (Line.price sl);
                "TP1: " ++ format_5f (Line.price tp1);
                "TP2: " ++ format_5f (Line.price tp2);
                "TP3: " ++ format_5f (Line.price tp3) ]%string.
Proof.
  do 2 eexists. split; [apply generate_signals_signals_of|].
  simpl. intros k p Hp.
  apply list_lookup_imap_Some in Hp as ([prev curr] & Hpair & ->).
  rewrite (lines_of_batch_concat _ _ k (prev, curr))
    by (apply signal_batch_five || done).
  simpl. unfold signal_batch, buy_signal, sell_signal, signal_lines.
  destruct (is_bullish prev curr); simpl;
    do 5 eexists; split_and!; reflexivity.
Qed.

(** ** The fields the generator reads *)

Lemma loop_body_same_quote (bars bars' : list Bar.t) (st : LoopState)
    (i : nat) :
  Forall2 same_quote bars bars' →
  loop_body bars st i = loop_body bars' st i.
Proof.
  intros Hsame. unfold loop_body.
  pose proof (proj1 (Forall2_lookup _ _ _) Hsame (i - 1)) as Hprev.
  pose proof (proj1 (Forall2_lookup _ _ _) Hsame i) as Hcurr.
  destruct Hprev as [prev prev' (Ht & Hh & Hl & Hc)|]; simpl; [|done].
  destruct Hcurr as [curr curr' (Ht' & Hh' & Hl' & Hc')|]; simpl; [|done].
  unfold is_inside_bar, signal_batch, is_bullish, mid_point, buy_signal,
    sell_signal.
  by rewrite Ht', Hh, Hl, Hh', Hl', Hc'.
Qed.

(** X15: [generate_signals] reads the time, high, low and close of the
    bars and nothing else: two bar sequences that agree on these four
    fields, whatever their opens and volumes, give the same points and
    lines. *)
Theorem generate_signals_ignores_open_and_volume
    (bars bars' : list Bar.t) :
  Forall2 same_quote bars bars' →
  generate_signals bars = generate_signals bars'.
Proof.
  intros Hsame. unfold generate_signals, loop_upto.
  rewrite (Forall2_length _ _ _ Hsame).
  enough (∀ indices st,
            for_each (loop_body bars) indices st
            = for_each (loop_body bars') indices st) as -> by done.
  induction indices as [|i indices IH]; intros st; simpl; [done|].
  rewrite (loop_body_same_quote bars bars') by done.
  destruct (loop_body bars' st i); [apply IH | done].
Qed.

(** The sample bars with every open and volume replaced. *)
Lemma generate_signals_ignores_open_and_volume_witness :
  generate_signals sample_bars
  = generate_signals
      ((λ bar, Bar.mk (Bar.time bar) 0 (Bar.high bar) (Bar.low bar)
                 (Bar.close bar) 7) <$> sample_bars).
Proof.
  apply (generate_signals_ignores_open_and_volume sample_bars).
  repeat constructor.
Defined.

(** ** The two readings of the prices, side by side *)

(** On the rounding bars the midpoint the script computes is the close
    itself, and the signal is a sell; on the exact values of the same
    bars the midpoint is below the close, and the signal would be a
    buy. *)
Example midpoint_rounding_example :
  (∃ pts lns,
     Binary64.generate_signals rounding_bars = Some (pts, lns)
     ∧ Binary64.Point.label <$> pts = ["SELL"]%string)
  ∧ (∃ pts lns,
       generate_signals rounding_bars_exact = Some (pts, lns)
       ∧ Point.label <$> pts = ["BUY"]%string).
Proof. split; do 2 eexists; (split; [reflexivity|]); reflexivity. Qed.

(** Bars with exactly representable prices: one buy batch, its labels as
    the script prints them. *)
Example dyadic_bars_signals :
  ∃ pts lns,
    Binary64.generate_signals dyadic_bars = Some (pts, lns)
    ∧ Binary64.Point.label <$> pts = ["BUY"]%string
    ∧ Binary64.Line.id <$> lns = batch_ids 0
    ∧ Binary64.Line.label <$> lns
      = [ "Entry: 1.56250"; "SL: 1.24950"; "TP1: 1.87550";
          "TP2: 2.18850"; "TP3: 2.50150" ]%string.
Proof. do 2 eexists. split; [reflexivity|]. split_and!; reflexivity. Qed.
